(** * The WeChat publishing client (wx/wechat.py): token cache and publish calls

    A shallow embedding of wx/wechat.py.  The module talks to three things
    outside itself: the local file system (the token cache file and the
    images to upload), the wall clock ([time.time()]) and the platform's HTTP
    API ([requests]).  They are modelled as explicit state and oracles, and
    every function of the module becomes a computation in a state-and-
    exception monad over them: a raised exception keeps the effects that
    came before it.

    The script that drives the module, wx/publish.py, is embedded on top of
    it: its front matter parser and its styling of the rendered HTML are
    functions on text, and its two commands run the computations of the
    module and may leave through [sys.exit].  The markdown renderer is a
    parameter of the script; its argument parser is not modelled.

    Conventions of the model:
    - a Python [str] is a Rocq [string] whose characters are code points
      below 256; the CJK text of the module's messages is carried as the
      UTF-8 bytes of the source literal;
    - numbers are integers: the clock is read in whole seconds, and a JSON
      document is in the fragment without fraction or exponent parts;
    - a Python [dict] obtained from JSON is an association list in insertion
      order with unique keys;
    - [json.dumps], [json.loads], [repr] and [Path.name] are the standard
      library's, transcribed for this fragment; so are [str.strip],
      [str.split], [str.splitlines], [str.replace] and [Path.stem];
    - the file system maps the paths of regular files, taken as they are
      written, to their content. *)

From Stdlib Require Import ZArith String Ascii List Bool Lia.
From Stdlib Require Import Decimal DecimalString DecimalZ DecimalPos.
From stdpp Require Import base gmap strings.

Import ListNotations.
Open Scope string_scope.
Open Scope Z_scope.

(** ** JSON values and the Python operations the module applies to them *)

Module Json.

#[warnings="-register-all"]
Inductive json : Type :=
| JNull
| JBool (b : bool)
| JNum (n : Z)
| JStr (s : string)
| JArr (l : list json)
| JObj (d : list (string * json)).

(** *** dict operations *)

Fixpoint dict_get (k : string) (d : list (string * json)) : option json :=
  match d with
  | [] => None
  | (k', v) :: d' => if String.eqb k k' then Some v else dict_get k d'
  end.

Definition dict_mem (k : string) (d : list (string * json)) : bool :=
  match dict_get k d with Some _ => true | None => false end.

(** [d.get(k, default)] *)
Definition dict_get_or (k : string) (d : list (string * json)) (default : json)
  : json :=
  match dict_get k d with Some v => v | None => default end.

(** [d[k] = v]: an existing key keeps its position, a new one goes last. *)
Fixpoint dict_set (k : string) (v : json) (d : list (string * json))
  : list (string * json) :=
  match d with
  | [] => [(k, v)]
  | (k', v') :: d' =>
      if String.eqb k k' then (k', v) :: d' else (k', v') :: dict_set k v d'
  end.

(** [dict(pairs)]: later pairs override earlier ones. *)
Definition dict_of_pairs (ps : list (string * json)) : list (string * json) :=
  fold_left (fun d kv => dict_set (fst kv) (snd kv) d) ps [].

(** *** Text helpers *)

Definition dquote : ascii := "034"%char.

Fixpoint is_prefix (p s : string) : bool :=
  match p, s with
  | EmptyString, _ => true
  | String a p', String b s' => Ascii.eqb a b && is_prefix p' s'
  | String _ _, EmptyString => false
  end.

(** [sub in s] on Python strings. *)
Fixpoint contains (sub s : string) : bool :=
  is_prefix sub s ||
  match s with
  | EmptyString => false
  | String _ s' => contains sub s'
  end.

Fixpoint mem_char (c : ascii) (s : string) : bool :=
  match s with
  | EmptyString => false
  | String a s' => Ascii.eqb a c || mem_char c s'
  end.

Definition hex_digit (n : N) : ascii :=
  if (n <? 10)%N then ascii_of_N (48 + n) else ascii_of_N (87 + n).

(** [str(n)] and the JSON text of an integer: decimal, ["-"] for negatives. *)
Definition dec_of_Z (n : Z) : string := NilZero.string_of_int (Z.to_int n).

(** *** [repr] and [str] *)

(** Characters [str.isprintable] accepts, among the code points below 256. *)
Definition printable (c : ascii) : bool :=
  let n := N_of_ascii c in
  ((32 <=? n) && (n <? 127) || (161 <=? n) && negb (n =? 173))%N.

Definition repr_char (quote c : ascii) : string :=
  if Ascii.eqb c quote || Ascii.eqb c "\"%char then String "\"%char (String c "")
  else if Ascii.eqb c "009"%char then "\t"
  else if Ascii.eqb c "010"%char then "\n"
  else if Ascii.eqb c "013"%char then "\r"
  else if printable c then String c ""
  else
    let n := N_of_ascii c in
    String "\"%char (String "x"%char
      (String (hex_digit (n / 16)) (String (hex_digit (n mod 16)) ""))).

Fixpoint repr_chars (quote : ascii) (s : string) : string :=
  match s with
  | EmptyString => ""
  | String c s' => repr_char quote c ++ repr_chars quote s'
  end.

(** [repr(s)]: single quotes, unless the text has a single quote and no
    double quote. *)
Definition repr_str (s : string) : string :=
  let quote :=
    if mem_char "'"%char s && negb (mem_char dquote s)
    then dquote else "'"%char in
  String quote (repr_chars quote s ++ String quote "").

Fixpoint join (sep : string) (l : list string) : string :=
  match l with
  | [] => ""
  | [x] => x
  | x :: l' => x ++ sep ++ join sep l'
  end.

Fixpoint py_repr (j : json) : string :=
  match j with
  | JNull => "None"
  | JBool true => "True"
  | JBool false => "False"
  | JNum n => dec_of_Z n
  | JStr s => repr_str s
  | JArr l => "[" ++ join ", " (map py_repr l) ++ "]"
  | JObj d =>
      "{" ++ join ", " (map (fun kv => repr_str (fst kv) ++ ": " ++ py_repr (snd kv)) d)
          ++ "}"
  end.

(** [str(j)], also what an f-string interpolates. *)
Definition py_str (j : json) : string :=
  match j with
  | JStr s => s
  | _ => py_repr j
  end.

(** *** Comparison and arithmetic against a number *)

(** The value of [j] where Python takes it as a number ([bool] is an [int]). *)
Definition as_number (j : json) : option Z :=
  match j with
  | JNum n => Some n
  | JBool b => Some (if b then 1 else 0)
  | _ => None
  end.

(** [j != n] for an integer [n]: values of other types are unequal to it. *)
Definition py_ne_num (j : json) (n : Z) : bool :=
  match as_number j with
  | Some m => negb (m =? n)
  | None => true
  end.

(** *** [json.dumps] *)

Definition esc_char (c : ascii) : string :=
  if Ascii.eqb c dquote then String "\"%char (String dquote "")
  else if Ascii.eqb c "\"%char then "\\"
  else if Ascii.eqb c "010"%char then "\n"
  else if Ascii.eqb c "013"%char then "\r"
  else if Ascii.eqb c "009"%char then "\t"
  else if Ascii.eqb c "008"%char then "\b"
  else if Ascii.eqb c "012"%char then "\f"
  else
    let n := N_of_ascii c in
    if ((32 <=? n) && (n <? 127))%N then String c ""
    else "\u00" ++ String (hex_digit (n / 16)) (String (hex_digit (n mod 16)) "").

Fixpoint esc_chars (s : string) : string :=
  match s with
  | EmptyString => ""
  | String c s' => esc_char c ++ esc_chars s'
  end.

Definition dumps_str (s : string) : string :=
  String dquote (esc_chars s ++ String dquote "").

(** [json.dumps(j)] with the default separators and [ensure_ascii]. *)
Fixpoint dumps (j : json) : string :=
  match j with
  | JNull => "null"
  | JBool true => "true"
  | JBool false => "false"
  | JNum n => dec_of_Z n
  | JStr s => dumps_str s
  | JArr l => "[" ++ join ", " (map dumps l) ++ "]"
  | JObj d =>
      "{" ++ join ", " (map (fun kv => dumps_str (fst kv) ++ ": " ++ dumps (snd kv)) d)
          ++ "}"
  end.

(** *** [json.loads] *)

Definition is_ws (c : ascii) : bool :=
  Ascii.eqb c " "%char || Ascii.eqb c "009"%char
  || Ascii.eqb c "010"%char || Ascii.eqb c "013"%char.

Fixpoint skip_ws (s : string) : string :=
  match s with
  | String c r => if is_ws c then skip_ws r else s
  | EmptyString => s
  end.

Definition hex_val (c : ascii) : option N :=
  let n := N_of_ascii c in
  if ((48 <=? n) && (n <=? 57))%N then Some (n - 48)%N
  else if ((97 <=? n) && (n <=? 102))%N then Some (n - 87)%N
  else if ((65 <=? n) && (n <=? 70))%N then Some (n - 55)%N
  else None.

Definition hex4 (a b c d : ascii) : option N :=
  match hex_val a, hex_val b, hex_val c, hex_val d with
  | Some x, Some y, Some z, Some w => Some (4096 * x + 256 * y + 16 * z + w)%N
  | _, _, _, _ => None
  end.

(** The character a one-letter escape stands for. *)
Definition unescape (e : ascii) : option ascii :=
  if Ascii.eqb e dquote then Some dquote
  else if Ascii.eqb e "\"%char then Some "\"%char
  else if Ascii.eqb e "/"%char then Some "/"%char
  else if Ascii.eqb e "b"%char then Some "008"%char
  else if Ascii.eqb e "f"%char then Some "012"%char
  else if Ascii.eqb e "n"%char then Some "010"%char
  else if Ascii.eqb e "r"%char then Some "013"%char
  else if Ascii.eqb e "t"%char then Some "009"%char
  else None.

Definition cons_result (c : ascii) (r : option (string * string))
  : option (string * string) :=
  match r with
  | Some (t, rest) => Some (String c t, rest)
  | None => None
  end.

(** The scanner of a string literal, from just after its opening quote to
    just after its closing one (strict mode: no raw control character).
    An escape [\uXXXX] of a code point from 256 on is outside the model. *)
Fixpoint scan_string (s : string) : option (string * string) :=
  match s with
  | EmptyString => None
  | String c r =>
      if Ascii.eqb c dquote then Some (EmptyString, r)
      else if Ascii.eqb c "\"%char then
        match r with
        | EmptyString => None
        | String e r1 =>
            if Ascii.eqb e "u"%char then
              match r1 with
              | String h1 (String h2 (String h3 (String h4 r2))) =>
                  match hex4 h1 h2 h3 h4 with
                  | Some n =>
                      if (n <? 256)%N
                      then cons_result (ascii_of_N n) (scan_string r2)
                      else None
                  | None => None
                  end
              | _ => None
              end
            else
              match unescape e with
              | Some ch => cons_result ch (scan_string r1)
              | None => None
              end
        end
      else if (N_of_ascii c <? 32)%N then None
      else cons_result c (scan_string r)
  end.

Definition digit_of (c : ascii) : option (uint -> uint) :=
  match N_of_ascii c with
  | 48%N => Some D0 | 49%N => Some D1 | 50%N => Some D2 | 51%N => Some D3
  | 52%N => Some D4 | 53%N => Some D5 | 54%N => Some D6 | 55%N => Some D7
  | 56%N => Some D8 | 57%N => Some D9
  | _ => None
  end.

Fixpoint scan_digits (s : string) : uint * string :=
  match s with
  | EmptyString => (Nil, s)
  | String c r =>
      match digit_of c with
      | Some d => let (u, rest) := scan_digits r in (d u, rest)
      | None => (Nil, s)
      end
  end.

(** The integer part of a number: [0|[1-9][0-9]*]. *)
Definition scan_nat (s : string) : option (uint * string) :=
  match s with
  | EmptyString => None
  | String c r =>
      if Ascii.eqb c "0"%char then Some (D0 Nil, r)
      else match digit_of c with
           | Some _ => Some (scan_digits s)
           | None => None
           end
  end.

(** An integer literal.  A fraction or exponent part is left in the rest,
    where no caller accepts it: such a document is outside the fragment and
    is not decoded. *)
Definition scan_number (s : string) : option (Z * string) :=
  match s with
  | EmptyString => None
  | String c r =>
      if Ascii.eqb c "-"%char then
        match scan_nat r with
        | Some (u, rest) => Some (Z.of_int (Neg u), rest)
        | None => None
        end
      else
        match scan_nat s with
        | Some (u, rest) => Some (Z.of_int (Pos u), rest)
        | None => None
        end
  end.

Fixpoint strip_prefix (p s : string) : option string :=
  match p, s with
  | EmptyString, _ => Some s
  | String a p', String b s' => if Ascii.eqb a b then strip_prefix p' s' else None
  | String _ _, EmptyString => None
  end.

(** The scanner proper.  [fuel] bounds the number of nested calls; [loads]
    gives it more than any document needs. *)
Fixpoint parse_value (fuel : nat) (s : string) {struct fuel}
  : option (json * string) :=
  match fuel with
  | O => None
  | S f =>
      match s with
      | EmptyString => None
      | String c r =>
          if Ascii.eqb c dquote then
            match scan_string r with
            | Some (t, rest) => Some (JStr t, rest)
            | None => None
            end
          else if Ascii.eqb c "{"%char then
            match skip_ws r with
            | EmptyString => None
            | String c' r' =>
                if Ascii.eqb c' "}"%char then Some (JObj [], r')
                else match parse_members f (String c' r') with
                     | Some (ps, rest) => Some (JObj (dict_of_pairs ps), rest)
                     | None => None
                     end
            end
          else if Ascii.eqb c "["%char then
            match skip_ws r with
            | EmptyString => None
            | String c' r' =>
                if Ascii.eqb c' "]"%char then Some (JArr [], r')
                else match parse_elems f (String c' r') with
                     | Some (vs, rest) => Some (JArr vs, rest)
                     | None => None
                     end
            end
          else
            match strip_prefix "null" s, strip_prefix "true" s,
                  strip_prefix "false" s with
            | Some rest, _, _ => Some (JNull, rest)
            | _, Some rest, _ => Some (JBool true, rest)
            | _, _, Some rest => Some (JBool false, rest)
            | None, None, None =>
                match scan_number s with
                | Some (n, rest) => Some (JNum n, rest)
                | None => None
                end
            end
      end
  end

with parse_elems (fuel : nat) (s : string) {struct fuel}
  : option (list json * string) :=
  match fuel with
  | O => None
  | S f =>
      match parse_value f s with
      | None => None
      | Some (v, r) =>
          match skip_ws r with
          | EmptyString => None
          | String c r' =>
              if Ascii.eqb c "]"%char then Some ([v], r')
              else if Ascii.eqb c ","%char then
                match parse_elems f (skip_ws r') with
                | Some (vs, rest) => Some (v :: vs, rest)
                | None => None
                end
              else None
          end
      end
  end

with parse_members (fuel : nat) (s : string) {struct fuel}
  : option (list (string * json) * string) :=
  match fuel with
  | O => None
  | S f =>
      match s with
      | EmptyString => None
      | String q r =>
          if negb (Ascii.eqb q dquote) then None
          else
            match scan_string r with
            | None => None
            | Some (k, r1) =>
                match skip_ws r1 with
                | EmptyString => None
                | String c r2 =>
                    if negb (Ascii.eqb c ":"%char) then None
                    else
                      match parse_value f (skip_ws r2) with
                      | None => None
                      | Some (v, r3) =>
                          match skip_ws r3 with
                          | EmptyString => None
                          | String c' r4 =>
                              if Ascii.eqb c' "}"%char then Some ([(k, v)], r4)
                              else if Ascii.eqb c' ","%char then
                                match parse_members f (skip_ws r4) with
                                | Some (ps, rest) => Some ((k, v) :: ps, rest)
                                | None => None
                                end
                              else None
                          end
                      end
                end
            end
      end
  end.

(** [json.loads(s)]: one value, white space around it, nothing else.
    [None] stands for [JSONDecodeError]. *)
Definition loads (s : string) : option json :=
  match parse_value (2 * String.length s + 2) (skip_ws s) with
  | Some (v, rest) =>
      match skip_ws rest with
      | EmptyString => Some v
      | String _ _ => None
      end
  | None => None
  end.

End Json.

Import Json.

(** ** The world outside the module, and computations over it *)

Module Py.

(** The exceptions the module raises or lets through. *)
Inductive exn : Type :=
| ValueError (msg : string)
| RuntimeError (msg : string)
| FileNotFoundError (msg : string)
| JSONDecodeError
| AttributeError
| TypeError
| KeyError (key : string)
| TransportError (what : string).

Inductive result (A : Type) : Type :=
| Ok (a : A)
| Raise (e : exn).
Arguments Ok {A} a.
Arguments Raise {A} e.

(** *** HTTP requests *)

Inductive method : Type := GET | POST.

(** What [files=] or [json=] attaches to a request. *)
Inductive body : Type :=
| NoBody
| JsonBody (j : json)
| FileBody (field name content mime : string).

Record request : Type := {
  rq_method : method;
  rq_url : string;
  rq_params : list (string * json);
  rq_body : body
}.

(** *** Configuration, oracles and mutable state *)

(** What the process is started with and what answers it: the two
    environment values, the successive readings of the wall clock, and the
    platform, which answers a request knowing the requests sent before it
    ([resp.json()] of the answer, or the exception raised on the way). *)
Record env : Type := {
  APP_ID : option string;
  APP_SECRET : option string;
  clock : nat -> Z;
  remote : list request -> request -> result json
}.

(** What the module changes: the files (path to content), the number of
    clock readings taken, the requests sent (oldest first), the lines
    printed. *)
Record state : Type := {
  fs : gmap string string;
  ticks : nat;
  sent : list request;
  stdout : list string
}.

Definition M (A : Type) : Type := env -> state -> result A * state.

#[global] Instance M_ret : MRet M := fun A a _ s => (Ok a, s).

#[global] Instance M_bind : MBind M := fun A B f m e s =>
  match m e s with
  | (Ok a, s') => f a e s'
  | (Raise x, s') => (Raise x, s')
  end.

Definition raise {A : Type} (x : exn) : M A := fun _ s => (Raise x, s).

Definition ask : M env := fun e s => (Ok e, s).

(** The four ways the state changes. *)
Definition tick (s : state) : state :=
  {| fs := fs s; ticks := S (ticks s); sent := sent s; stdout := stdout s |}.

Definition set_file (p txt : string) (s : state) : state :=
  {| fs := <[p := txt]> (fs s); ticks := ticks s; sent := sent s;
     stdout := stdout s |}.

Definition log_request (rq : request) (s : state) : state :=
  {| fs := fs s; ticks := ticks s; sent := sent s ++ [rq]; stdout := stdout s |}.

Definition emit (line : string) (s : state) : state :=
  {| fs := fs s; ticks := ticks s; sent := sent s; stdout := stdout s ++ [line] |}.

(** [time.time()] *)
Definition time_time : M Z := fun e s => (Ok (clock e (ticks s)), tick s).

(** [Path(p).exists()] *)
Definition path_exists (p : string) : M bool := fun _ s =>
  (Ok (match fs s !! p with Some _ => true | None => false end), s).

(** [Path(p).read_text()], and [open(p, "rb")] for the bytes to upload. *)
Definition read_text (p : string) : M string := fun _ s =>
  match fs s !! p with
  | Some txt => (Ok txt, s)
  | None => (Raise (FileNotFoundError p), s)
  end.

(** [Path(p).write_text(txt)]: the file is replaced as a whole. *)
Definition write_text (p txt : string) : M unit := fun _ s =>
  (Ok tt, set_file p txt s).

(** [requests.get(...)] or [requests.post(...)], followed by [.json()]. *)
Definition send (rq : request) : M json := fun e s =>
  (remote e (sent s) rq, log_request rq s).

Definition print (line : string) : M unit := fun _ s => (Ok tt, emit line s).

Definition json_loads (txt : string) : M json :=
  match loads txt with
  | Some j => mret j
  | None => raise JSONDecodeError
  end.

(** *** Python operations that may raise *)

(** [j.get(k, default)]: only a dict has the method. *)
Definition py_get (j : json) (k : string) (default : json) : M json :=
  match j with
  | JObj d => mret (dict_get_or k d default)
  | _ => raise AttributeError
  end.

(** [j[k]] for a string [k]. *)
Definition py_getitem (j : json) (k : string) : M json :=
  match j with
  | JObj d =>
      match dict_get k d with
      | Some v => mret v
      | None => raise (KeyError k)
      end
  | _ => raise TypeError
  end.

(** [k in j] for a string [k]: a key of a dict, an element of a list, a
    substring of a string. *)
Definition py_contains (k : string) (j : json) : M bool :=
  match j with
  | JObj d => mret (dict_mem k d)
  | JArr l =>
      mret (existsb (fun v => match v with JStr s => String.eqb s k | _ => false end) l)
  | JStr s => mret (contains k s)
  | _ => raise TypeError
  end.

(** [t < j] for a clock reading [t]. *)
Definition py_lt (t : Z) (j : json) : M bool :=
  match as_number j with
  | Some n => mret (t <? n)
  | None => raise TypeError
  end.

(** [t + j] for a clock reading [t]. *)
Definition py_add (t : Z) (j : json) : M Z :=
  match as_number j with
  | Some n => mret (t + n)
  | None => raise TypeError
  end.

(** Truth value of an environment variable: unset and empty are false. *)
Definition truthy (v : option string) : bool :=
  match v with
  | Some (String _ _) => true
  | _ => false
  end.

(** [Path(p).name]: the last component, empty and dot components dropped. *)
Fixpoint path_name_from (cur : string) (last : string) (p : string) : string :=
  let keep c := if String.eqb c "" || String.eqb c "." then last else c in
  match p with
  | EmptyString => keep cur
  | String c p' =>
      if Ascii.eqb c "/"%char then path_name_from "" (keep cur) p'
      else path_name_from (cur ++ String c "") last p'
  end.

Definition path_name (p : string) : string := path_name_from "" "" p.

End Py.

Import Py.

(** ** wx/wechat.py *)

Module Wechat.

Definition BASE_URL : string := "https://api.weixin.qq.com/cgi-bin".

(** [Path(__file__).parent / ".token_cache.json"] *)
Definition TOKEN_CACHE : string := "wx/.token_cache.json".

Definition credentials_message : string :=
  "WECHAT_APP_ID 和 WECHAT_APP_SECRET 未配置，请检查 wx/.env".

Definition _check_credentials : M unit :=
  e ← ask;
  if negb (truthy (APP_ID e)) || negb (truthy (APP_SECRET e))
  then raise (ValueError credentials_message)
  else mret tt.

(** An environment value as a query parameter. *)
Definition env_value (v : option string) : json :=
  match v with
  | Some s => JStr s
  | None => JNull
  end.

(** The request of lines 43-47. *)
Definition token_request (e : env) : request :=
  {| rq_method := GET;
     rq_url := BASE_URL ++ "/token";
     rq_params := [("grant_type", JStr "client_credential");
                   ("appid", env_value (APP_ID e));
                   ("secret", env_value (APP_SECRET e))];
     rq_body := NoBody |}.

(** Lines 43-58 of [get_access_token]: ask the token endpoint, store the
    record, return the token. *)
Definition request_token : M json :=
  e ← ask;
  data ← send (token_request e);
  has ← py_contains "access_token" data;
  if negb has then
    raise (RuntimeError ("获取 access_token 失败: " ++ py_str data))
  else
    tok ← py_getitem data "access_token";
    now ← time_time;
    expires_in ← py_get data "expires_in" (JNum 7200);
    sum ← py_add now expires_in;
    let cache := JObj [("access_token", tok);
                       ("expires_at", JNum (sum - 300))] in
    write_text TOKEN_CACHE (dumps cache);;
    py_getitem cache "access_token".

(** [get_access_token(force_refresh)].  The early [return] of the cached
    token is the [Some] of [cached]; [None] falls through to line 43. *)
Definition get_access_token (force_refresh : bool) : M json :=
  _check_credentials;;
  cached ←
    (if negb force_refresh then
       ex ← path_exists TOKEN_CACHE;
       if (ex : bool) then
         txt ← read_text TOKEN_CACHE;
         cache ← json_loads txt;
         now ← time_time;
         expires_at ← py_get cache "expires_at" (JNum 0);
         fresh ← py_lt now expires_at;
         if (fresh : bool) then
           tok ← py_getitem cache "access_token";
           mret (Some tok)
         else mret None
       else mret None
     else mret None);
  match cached with
  | Some tok => mret tok
  | None => request_token
  end.

Definition upload_image (image_path : string) (permanent : bool) : M json :=
  token ← get_access_token false;
  ex ← path_exists image_path;
  if negb ex then raise (FileNotFoundError ("图片不存在: " ++ image_path))
  else
    let url := if permanent then BASE_URL ++ "/material/add_material"
               else BASE_URL ++ "/media/upload" in
    let params := [("access_token", token); ("type", JStr "image")] in
    f ← read_text image_path;
    data ← send {| rq_method := POST; rq_url := url; rq_params := params;
                   rq_body := FileBody "media" (path_name image_path) f "image/png" |};
    has ← py_contains "media_id" data;
    if negb has then raise (RuntimeError ("上传图片失败: " ++ py_str data))
    else
      media_id ← py_getitem data "media_id";
      print ("  图片已上传: media_id=" ++ py_str media_id);;
      py_getitem data "media_id".

Definition upload_thumb_image (image_path : string) : M json :=
  token ← get_access_token false;
  ex ← path_exists image_path;
  if negb ex then raise (FileNotFoundError ("图片不存在: " ++ image_path))
  else
    let url := BASE_URL ++ "/material/add_material" in
    let params := [("access_token", token); ("type", JStr "thumb")] in
    f ← read_text image_path;
    data ← send {| rq_method := POST; rq_url := url; rq_params := params;
                   rq_body := FileBody "media" (path_name image_path) f "image/jpeg" |};
    has ← py_contains "media_id" data;
    if negb has then raise (RuntimeError ("上传封面图失败: " ++ py_str data))
    else
      media_id ← py_getitem data "media_id";
      print ("  封面图已上传: media_id=" ++ py_str media_id);;
      py_getitem data "media_id".

Definition upload_content_image (image_path : string) : M json :=
  token ← get_access_token false;
  ex ← path_exists image_path;
  if negb ex then raise (FileNotFoundError ("图片不存在: " ++ image_path))
  else
    let url := BASE_URL ++ "/media/uploadimg" in
    let params := [("access_token", token)] in
    f ← read_text image_path;
    data ← send {| rq_method := POST; rq_url := url; rq_params := params;
                   rq_body := FileBody "media" (path_name image_path) f "image/png" |};
    has ← py_contains "url" data;
    if negb has then raise (RuntimeError ("上传正文图片失败: " ++ py_str data))
    else
      u ← py_getitem data "url";
      print ("  正文图片已上传: url=" ++ py_str u);;
      py_getitem data "url".

Definition create_draft (title content : string) (thumb_media_id : json)
    (author digest : string) : M json :=
  token ← get_access_token false;
  let article := [("title", JStr title);
                  ("author", JStr author);
                  ("content", JStr content);
                  ("thumb_media_id", thumb_media_id);
                  ("need_open_comment", JNum 0);
                  ("only_fans_can_comment", JNum 0)] in
  let article := if String.eqb digest "" then article
                 else dict_set "digest" (JStr digest) article in
  let payload := JObj [("articles", JArr [JObj article])] in
  data ← send {| rq_method := POST; rq_url := BASE_URL ++ "/draft/add";
                 rq_params := [("access_token", token)];
                 rq_body := JsonBody payload |};
  has ← py_contains "media_id" data;
  if negb has then raise (RuntimeError ("创建草稿失败: " ++ py_str data))
  else
    media_id ← py_getitem data "media_id";
    print ("  草稿已创建: media_id=" ++ py_str media_id);;
    py_getitem data "media_id".

(** The request of lines 190-194. *)
Definition publish_request (token media_id : json) : request :=
  {| rq_method := POST;
     rq_url := BASE_URL ++ "/freepublish/submit";
     rq_params := [("access_token", token)];
     rq_body := JsonBody (JObj [("media_id", media_id)]) |}.

Definition publish (media_id : json) : M string :=
  token ← get_access_token false;
  data ← send (publish_request token media_id);
  errcode ← py_get data "errcode" (JNum 0);
  if py_ne_num errcode 0 then
    raise (RuntimeError ("发布失败: " ++ py_str data))
  else
    publish_id ← py_get data "publish_id" (JStr "unknown");
    print ("  文章已提交发布: publish_id=" ++ py_str publish_id);;
    mret (py_str publish_id).

Definition get_publish_status (publish_id : json) : M json :=
  token ← get_access_token false;
  send {| rq_method := POST; rq_url := BASE_URL ++ "/freepublish/get";
          rq_params := [("access_token", token)];
          rq_body := JsonBody (JObj [("publish_id", publish_id)]) |}.

End Wechat.

Import Wechat.

(** ** The text operations of Python that wx/publish.py uses *)

Module PyStr.

(** [c.isspace()], for the code points below 256. *)
Definition is_space (c : ascii) : bool :=
  let n := N_of_ascii c in
  ((9 <=? n) && (n <=? 13) || (28 <=? n) && (n <=? 32)
   || (n =? 133) || (n =? 160))%N.

Fixpoint lstrip (s : string) : string :=
  match s with
  | EmptyString => s
  | String c r => if is_space c then lstrip r else s
  end.

Fixpoint rstrip (s : string) : string :=
  match s with
  | EmptyString => EmptyString
  | String c r =>
      match rstrip r with
      | EmptyString => if is_space c then EmptyString else String c EmptyString
      | String c' r' => String c (String c' r')
      end
  end.

(** [s.strip()] *)
Definition strip (s : string) : string := rstrip (lstrip s).

(** The characters [str.splitlines] breaks at, below 256. *)
Definition is_linebreak (c : ascii) : bool :=
  let n := N_of_ascii c in
  ((10 <=? n) && (n <=? 13) || (28 <=? n) && (n <=? 30) || (n =? 133))%N.

(** [s.splitlines()]: a carriage return followed by a line feed is one
    break, and the break that ends the text opens no line. *)
Fixpoint splitlines (s : string) : list string :=
  match s with
  | EmptyString => []
  | String c r =>
      if is_linebreak c then
        EmptyString ::
        splitlines
          (match r with
           | String c' r' =>
               if Ascii.eqb c "013"%char && Ascii.eqb c' "010"%char then r' else r
           | EmptyString => r
           end)
      else
        match splitlines r with
        | [] => [String c EmptyString]
        | l :: ls => String c l :: ls
        end
  end.

(** [s.partition(sep)] when [sep] occurs: the text before its first
    occurrence and the text after. *)
Fixpoint cut (sep s : string) : option (string * string) :=
  match strip_prefix sep s with
  | Some r => Some (EmptyString, r)
  | None =>
      match s with
      | EmptyString => None
      | String c r =>
          match cut sep r with
          | Some (a, b) => Some (String c a, b)
          | None => None
          end
      end
  end.

(** [s.split(sep, maxsplit)] for a separator that is not empty. *)
Fixpoint split_max (sep : string) (maxsplit : nat) (s : string) : list string :=
  match maxsplit with
  | O => [s]
  | S n =>
      match cut sep s with
      | Some (a, b) => a :: split_max sep n b
      | None => [s]
      end
  end.

(** [s.replace(old, new)] for an [old] that is not empty: occurrences are
    taken from the left and do not overlap.  [skip] counts the characters
    of the occurrence being replaced that are still to pass. *)
Fixpoint replace_from (old new : string) (skip : nat) (s : string) : string :=
  match s with
  | EmptyString => EmptyString
  | String c r =>
      match skip with
      | S k => replace_from old new k r
      | O =>
          if is_prefix old s
          then new ++ replace_from old new (Nat.pred (String.length old)) r
          else String c (replace_from old new O r)
      end
  end.

Definition replace (old new s : string) : string := replace_from old new O s.

(** The position of the last [c] in [s]. *)
Fixpoint rfind (c : ascii) (s : string) : option nat :=
  match s with
  | EmptyString => None
  | String a r =>
      match rfind c r with
      | Some i => Some (S i)
      | None => if Ascii.eqb a c then Some O else None
      end
  end.

(** [Path(p).stem]: the name without its last suffix. *)
Definition path_stem (p : string) : string :=
  let name := path_name p in
  match rfind "."%char name with
  | Some i =>
      if (0 <? i)%nat && (i <? String.length name - 1)%nat
      then String.substring 0 i name
      else name
  | None => name
  end.

(** [s[:n]] *)
Definition str_take (n : nat) (s : string) : string := String.substring 0 n s.

End PyStr.

Import PyStr.

(** ** wx/publish.py *)

Module Publish.

(** *** A dict of strings: the front matter *)

Fixpoint meta_get (k : string) (m : list (string * string)) : option string :=
  match m with
  | [] => None
  | (k', v) :: m' => if String.eqb k k' then Some v else meta_get k m'
  end.

(** [m.get(k, default)] *)
Definition meta_get_or (k : string) (m : list (string * string)) (default : string)
  : string :=
  match meta_get k m with Some v => v | None => default end.

(** [m[k] = v] *)
Fixpoint meta_set (k v : string) (m : list (string * string))
  : list (string * string) :=
  match m with
  | [] => [(k, v)]
  | (k', v') :: m' =>
      if String.eqb k k' then (k', v) :: m' else (k', v') :: meta_set k v m'
  end.

(** Lines 110-113: one line of the front matter. *)
Definition read_line (meta : list (string * string)) (line : string)
  : list (string * string) :=
  if contains ":" line then
    match split_max ":" 1 line with
    | [key; val] => meta_set (strip key) (strip val) meta
    | _ => meta
    end
  else meta.

Definition parse_frontmatter (text : string) : list (string * string) * string :=
  if negb (is_prefix "---" text) then ([], text)
  else
    let parts := split_max "---" 2 text in
    if (length parts <? 3)%nat then ([], text)
    else
      (fold_left read_line (splitlines (strip (nth 1 parts ""))) [],
       strip (nth 2 parts "")).

(** [style="css"] *)
Definition style (css : string) : string :=
  "style=" ++ String dquote (css ++ String dquote "").

(** The way a script ends: it returns, it leaves through [sys.exit], or an
    exception reaches the top. *)
Inductive ending (A : Type) : Type :=
| Done (a : A)
| Exit (code : Z)
| Crash (x : exn).
Arguments Done {A} a.
Arguments Exit {A} code.
Arguments Crash {A} x.

Definition Script (A : Type) : Type := env -> state -> ending A * state.

#[local] Instance Script_ret : MRet Script := fun A a _ s => (Done a, s).

#[local] Instance Script_bind : MBind Script := fun A B f m e s =>
  match m e s with
  | (Done a, s') => f a e s'
  | (Exit code, s') => (Exit code, s')
  | (Crash x, s') => (Crash x, s')
  end.

(** A computation of wechat.py run by the script. *)
Definition call {A : Type} (m : M A) : Script A := fun e s =>
  match m e s with
  | (Ok a, s') => (Done a, s')
  | (Raise x, s') => (Crash x, s')
  end.

(** [try: m except Exception as x: handler x] *)
Definition try_except {A : Type} (m : M A) (handler : exn -> Script A) : Script A :=
  fun e s =>
    match m e s with
    | (Ok a, s') => (Done a, s')
    | (Raise x, s') => handler x e s'
    end.

(** [sys.exit(code)] *)
Definition sys_exit {A : Type} (code : Z) : Script A := fun _ s => (Exit code, s).

(** [token[:20]], as the f-string shows it: the start of a string or of a
    list; the other values cannot be sliced (for a dict the error is the
    type error up to Python 3.11, a key error from 3.12 on). *)
Definition py_head20 (token : json) : M string :=
  match token with
  | JStr s => mret (str_take 20 s)
  | JArr l => mret (py_repr (JArr (firstn 20 l)))
  | _ => raise TypeError
  end.

Definition DEFAULT_COVER : string := "wx/default_cover.jpg".

(** Lines 168-193 of [do_publish]: the cover is uploaded, the draft
    created and, unless [draft_only], published. *)
Definition release (title html_content cover author digest : string)
    (draft_only : bool) : Script unit :=
  thumb_media_id ← call (upload_thumb_image cover);
  call (print "[4/5] 创建草稿 ...");;
  draft_media_id ← call (create_draft title html_content thumb_media_id author digest);
  if draft_only then
    call (print (String "010"%char "已创建草稿（--draft-only 模式，不自动发布）"));;
    call (print ("草稿 media_id: " ++ py_str draft_media_id));;
    call (print "请在微信公众号后台手动发布。")
  else
    call (print "[5/5] 提交发布 ...");;
    publish_id ← call (publish draft_media_id);
    call (print (String "010"%char "发布完成！"));;
    call (print ("  草稿 media_id:  " ++ py_str draft_media_id));;
    call (print ("  发布 publish_id: " ++ publish_id));;
    call (print "  注意: 发布为异步操作，可能需要几秒到几分钟生效。").

Section Libraries.

(** [markdown.markdown(text, extensions=["fenced_code", "tables", "nl2br"])],
    the renderer of the markdown package. *)
Variable markdown : string -> string.

(** [str(e)] for the errors whose text Python or a library composes. *)
Variable builtin_text : exn -> string.

(** Lines 34-97.  [re.sub] with the pattern [<td>], which has no special
    character, and a replacement without backslash is [str.replace]. *)
Definition md_to_wx_html (md_text : string) : string :=
  let html := markdown md_text in
  let html :=
    replace "<p>"
      ("<p " ++ style "margin: 1em 0; line-height: 1.8; font-size: 16px;" ++ ">") html in
  let html :=
    fold_left
      (fun html i =>
         replace ("<h" ++ dec_of_Z i ++ ">")
           ("<h" ++ dec_of_Z i ++ " "
              ++ style "font-weight: bold; margin: 1.5em 0 0.8em; color: #1a1a1a;" ++ ">")
           html)
      [1; 2; 3; 4] html in
  let html :=
    replace "<code>"
      ("<code "
         ++ style "background: #f5f5f5; padding: 2px 6px; border-radius: 3px; font-size: 14px;"
         ++ ">") html in
  let html :=
    replace "<pre>"
      ("<pre "
         ++ style "background: #2d2d2d; color: #f8f8f2; padding: 16px; border-radius: 8px; overflow-x: auto; font-size: 14px; line-height: 1.5;"
         ++ ">") html in
  let html := replace "<ul>" ("<ul " ++ style "margin: 1em 0; padding-left: 2em;" ++ ">") html in
  let html := replace "<ol>" ("<ol " ++ style "margin: 1em 0; padding-left: 2em;" ++ ">") html in
  let html := replace "<li>" ("<li " ++ style "margin: 0.5em 0; line-height: 1.8;" ++ ">") html in
  let html :=
    replace "<blockquote>"
      ("<blockquote "
         ++ style "border-left: 4px solid #42b983; padding: 12px 16px; margin: 1em 0; background: #f8f8f8; color: #666;"
         ++ ">") html in
  let html :=
    replace "<table>"
      ("<table " ++ style "border-collapse: collapse; width: 100%; margin: 1em 0;" ++ ">")
      html in
  let html :=
    replace "<th>"
      ("<th "
         ++ style "border: 1px solid #ddd; padding: 8px 12px; background: #f5f5f5; font-weight: bold;"
         ++ ">") html in
  let html :=
    replace "<td>" ("<td " ++ style "border: 1px solid #ddd; padding: 8px 12px;" ++ ">") html in
  let html :=
    replace "<a " ("<a " ++ style "color: #42b983; text-decoration: none;" ++ " ") html in
  let html :=
    replace "<img "
      ("<img " ++ style "max-width: 100%; display: block; margin: 1em auto;" ++ " ") html in
  html.

(** [str(e)]: the message of the errors wechat.py raises itself, the
    repr of the key for a missing key. *)
Definition exn_text (x : exn) : string :=
  match x with
  | ValueError msg | RuntimeError msg => msg
  | KeyError key => repr_str key
  | _ => builtin_text x
  end.

Definition do_verify : Script unit :=
  call (print "正在验证 access_token ...");;
  try_except
    (token ← get_access_token true;
     head ← py_head20 token;
     print ("  access_token 获取成功: " ++ head ++ "...");;
     print "验证通过！")
    (fun x => call (print ("验证失败: " ++ exn_text x));; sys_exit 1).

Definition do_publish (md_path : string) (cover_path : option string)
    (author : string) (draft_only : bool) : Script unit :=
  ex ← call (path_exists md_path);
  if negb ex then
    call (print ("文件不存在: " ++ md_path));; sys_exit 1
  else
    call (print ("[1/5] 读取文章: " ++ path_name md_path));;
    raw ← call (read_text md_path);
    let (meta, body) := parse_frontmatter raw in
    let title := meta_get_or "title" meta (path_stem md_path) in
    let digest := meta_get_or "digest" meta "" in
    let author := meta_get_or "author" meta author in
    let cover_path :=
      if truthy cover_path then cover_path else meta_get "cover" meta in
    call (print ("  标题: " ++ title));;
    call (print ("  作者: " ++ author));;
    call (print "[2/5] 转换 HTML ...");;
    let html_content := md_to_wx_html body in
    call (print ("  HTML 长度: "
                 ++ dec_of_Z (Z.of_nat (String.length html_content)) ++ " 字符"));;
    call (print "[3/5] 上传封面图 ...");;
    cover ←
      (match cover_path with
       | Some (String c p) => mret (String c p)
       | _ =>
           ex ← call (path_exists DEFAULT_COVER);
           if negb ex then
             call (print "  错误: 未指定封面图，且 wx/default_cover.jpg 不存在");;
             call (print "  请使用 --cover 参数指定封面图，或放置 wx/default_cover.jpg");;
             sys_exit 1
           else mret DEFAULT_COVER
       end);
    release title html_content cover author digest draft_only.

End Libraries.

End Publish.

Import Publish.

(** ** Vocabulary of the properties *)

(** Both identity values are set (and not empty). *)
Definition valid_identity (e : env) : Prop :=
  truthy (APP_ID e) = true /\ truthy (APP_SECRET e) = true.

(** The record [get_access_token] stores. *)
Definition cached_token (tok : json) (expires_at : Z) : json :=
  JObj [("access_token", tok); ("expires_at", JNum expires_at)].

(** The cache file holds a record with these two fields. *)
Definition holds_record (s : state) (tok : json) (expires_at : Z) : Prop :=
  exists txt d,
    fs s !! TOKEN_CACHE = Some txt /\ loads txt = Some (JObj d) /\
    dict_get "access_token" d = Some tok /\
    dict_get "expires_at" d = Some (JNum expires_at).

Definition network_calls (s : state) : nat := length (sent s).

(** Two calls in succession, neither forcing a refresh. *)
Definition twice (e : env) (s : state) : result json * result json * state :=
  let (r1, s1) := get_access_token false e s in
  let (r2, s2) := get_access_token false e s1 in
  (r1, r2, s2).

(** What an upload of a missing file comes to: the token is obtained first. *)
Definition token_then_not_found (p : string) (e : env) (s : state)
  : result json * state :=
  match get_access_token false e s with
  | (Ok _, s1) => (Raise (FileNotFoundError ("图片不存在: " ++ p)), s1)
  | (Raise x, s1) => (Raise x, s1)
  end.








(** ** Scenarios *)

(** Identity [{id: "A", secret: "B"}], a clock that starts at [now] and
    advances by a second at each reading, a platform that answers every
    request by [answer]. *)
Definition scenario (now : Z) (answer : request -> result json) : env :=
  {| APP_ID := Some "A"; APP_SECRET := Some "B";
     clock := fun n => now + Z.of_nat n;
     remote := fun _ rq => answer rq |}.

Definition token_reply (expires_in : Z) : json :=
  JObj [("access_token", JStr "tok1"); ("expires_in", JNum expires_in)].

Definition empty_state : state :=
  {| fs := ∅; ticks := 0; sent := []; stdout := [] |}.

(** A cache file with a record that expires at 2000. *)
Definition warm_state : state :=
  set_file TOKEN_CACHE (dumps (cached_token (JStr "tok0") 2000)) empty_state.

(** A cache file cut short while it was written: the first 30 characters
    of a record. *)
Definition cut_short : string :=
  String.substring 0 30 (dumps (cached_token (JStr "tok0") 2000)).


(** The secret is not set. *)
Definition no_secret : env :=
  {| APP_ID := Some "A"; APP_SECRET := None;
     clock := fun n => 1000 + Z.of_nat n;
     remote := fun _ _ => Ok (token_reply 7200) |}.

(** Answers of the platform that carry an error. *)
Definition refusal : json :=
  JObj [("errcode", JNum 40013); ("errmsg", JStr "invalid appid")].

Definition invalid_credential : list (string * json) :=
  [("errcode", JNum 40001); ("errmsg", JStr "invalid credential")].

(** A platform that issues [tok1] and answers every other request by
    [answer]. *)
Definition publisher (answer : json) : env :=
  scenario 1000 (fun rq =>
    if String.eqb (rq_url rq) (BASE_URL ++ "/token") then Ok (token_reply 7200)
    else Ok answer).

(** Unfolds the monad and the primitive effects, and reduces what is
    decided. *)
Ltac run :=
  cbv beta iota delta [mbind M_bind mret M_ret raise ask time_time path_exists
    read_text write_text send print json_loads py_get py_getitem
    py_contains py_lt py_add] in *.

(** ** Vocabulary of the further properties *)


(** The six operations that need a token. *)
Inductive operation : Type :=
| UploadImage (image_path : string) (permanent : bool)
| UploadThumbImage (image_path : string)
| UploadContentImage (image_path : string)
| CreateDraft (title content : string) (thumb_media_id : json) (author digest : string)
| Publish (media_id : json)
| GetPublishStatus (publish_id : json).

(** The operation run; the string [publish] returns is seen as a JSON
    string, so that all six have results of one type. *)
Definition perform (op : operation) : M json :=
  match op with
  | UploadImage p permanent => upload_image p permanent
  | UploadThumbImage p => upload_thumb_image p
  | UploadContentImage p => upload_content_image p
  | CreateDraft t c m a d => create_draft t c m a d
  | Publish m => publish_id ← publish m; mret (JStr publish_id)
  | GetPublishStatus p => get_publish_status p
  end.

(** The endpoint an operation addresses. *)
Definition endpoint (op : operation) : string :=
  match op with
  | UploadImage _ true | UploadThumbImage _ => BASE_URL ++ "/material/add_material"
  | UploadImage _ false => BASE_URL ++ "/media/upload"
  | UploadContentImage _ => BASE_URL ++ "/media/uploadimg"
  | CreateDraft _ _ _ _ _ => BASE_URL ++ "/draft/add"
  | Publish _ => BASE_URL ++ "/freepublish/submit"
  | GetPublishStatus _ => BASE_URL ++ "/freepublish/get"
  end.

(** The file an operation uploads. *)
Definition uploaded (op : operation) : option string :=
  match op with
  | UploadImage p _ | UploadThumbImage p | UploadContentImage p => Some p
  | _ => None
  end.

(** The field of the answer that an upload or [create_draft] returns. *)
Definition answer_key (op : operation) : option string :=
  match op with
  | UploadImage _ _ | UploadThumbImage _ | CreateDraft _ _ _ _ _ => Some "media_id"
  | UploadContentImage _ => Some "url"
  | Publish _ | GetPublishStatus _ => None
  end.

(** The text before the value in the line printed on success. *)
Definition success_line (op : operation) : string :=
  match op with
  | UploadImage _ _ => "  图片已上传: media_id="
  | UploadThumbImage _ => "  封面图已上传: media_id="
  | UploadContentImage _ => "  正文图片已上传: url="
  | CreateDraft _ _ _ _ _ => "  草稿已创建: media_id="
  | Publish _ => "  文章已提交发布: publish_id="
  | GetPublishStatus _ => ""
  end.

(** The text before the answer in the message of the provider error. *)
Definition failure_text (op : operation) : string :=
  match op with
  | UploadImage _ _ => "上传图片失败: "
  | UploadThumbImage _ => "上传封面图失败: "
  | UploadContentImage _ => "上传正文图片失败: "
  | CreateDraft _ _ _ _ _ => "创建草稿失败: "
  | Publish _ => "发布失败: "
  | GetPublishStatus _ => ""
  end.

(** What a run added to the requests sent. *)
Definition requests_since (s s' : state) : list request :=
  drop (length (sent s)) (sent s').

(** What the uploads and [create_draft] do with the answer: the field [k]
    is returned after a line is printed, and its absence is an error. *)
Definition check_answer (k failure line : string) (data : json) : M json :=
  has ← py_contains k data;
  if negb has then raise (RuntimeError (failure ++ py_str data))
  else
    v ← py_getitem data k;
    print (line ++ py_str v);;
    py_getitem data k.

(** Unfolds the six operations. *)
Ltac unfold_operations :=
  unfold upload_image, upload_thumb_image, upload_content_image, create_draft,
    publish, get_publish_status, publish_request.


(** *** Front matter as it is written *)

(** Every character of [s] satisfies [p]. *)
Fixpoint all_chars (p : ascii -> bool) (s : string) : bool :=
  match s with
  | EmptyString => true
  | String c r => p c && all_chars p r
  end.

(** A line feed. *)
Definition newline : string := String "010"%char "".

(** Each line followed by a line feed. *)
Fixpoint lines_text (lines : list string) : string :=
  match lines with
  | [] => ""
  | l :: ls => l ++ newline ++ lines_text ls
  end.

(** A key or value as a front matter line shows it: not empty, on one
    line, no white space around it. *)
Definition plain (s : string) : bool :=
  negb (String.eqb s "") && String.eqb (strip s) s
  && all_chars (fun c => negb (is_linebreak c)) s.

(** A line of the front matter. *)
Definition front_line (kv : string * string) : string := fst kv ++ ": " ++ snd kv.

(** An article with its front matter written out. *)
Definition front_matter (pairs : list (string * string)) (body : string) : string :=
  "---" ++ newline ++ lines_text (map front_line pairs) ++ "---" ++ newline ++ body.

(** The dict of the pairs, assigned in order. *)
Definition meta_of_pairs (pairs : list (string * string)) : list (string * string) :=
  fold_left (fun m kv => meta_set (fst kv) (snd kv) m) pairs [].

(** *** The styles *)

(** The tags that get a style, each with what replaces it, in the order of
    lines 41-95: the paragraph, the four headings, the others. *)
Definition paragraph_style : string * string :=
  ("<p>", "<p " ++ style "margin: 1em 0; line-height: 1.8; font-size: 16px;" ++ ">").

(** The style of [<h1>] to [<h4>], lines 44-48. *)
Definition heading_style (i : Z) : string * string :=
  ("<h" ++ dec_of_Z i ++ ">",
   "<h" ++ dec_of_Z i ++ " "
     ++ style "font-weight: bold; margin: 1.5em 0 0.8em; color: #1a1a1a;" ++ ">").

(** Lines 51-95. *)
Definition block_styles : list (string * string) :=
  [ ("<code>",
     "<code " ++ style "background: #f5f5f5; padding: 2px 6px; border-radius: 3px; font-size: 14px;" ++ ">");
    ("<pre>",
     "<pre " ++ style "background: #2d2d2d; color: #f8f8f2; padding: 16px; border-radius: 8px; overflow-x: auto; font-size: 14px; line-height: 1.5;" ++ ">");
    ("<ul>", "<ul " ++ style "margin: 1em 0; padding-left: 2em;" ++ ">");
    ("<ol>", "<ol " ++ style "margin: 1em 0; padding-left: 2em;" ++ ">");
    ("<li>", "<li " ++ style "margin: 0.5em 0; line-height: 1.8;" ++ ">");
    ("<blockquote>",
     "<blockquote " ++ style "border-left: 4px solid #42b983; padding: 12px 16px; margin: 1em 0; background: #f8f8f8; color: #666;" ++ ">");
    ("<table>",
     "<table " ++ style "border-collapse: collapse; width: 100%; margin: 1em 0;" ++ ">");
    ("<th>",
     "<th " ++ style "border: 1px solid #ddd; padding: 8px 12px; background: #f5f5f5; font-weight: bold;" ++ ">");
    ("<td>", "<td " ++ style "border: 1px solid #ddd; padding: 8px 12px;" ++ ">");
    ("<a ", "<a " ++ style "color: #42b983; text-decoration: none;" ++ " ");
    ("<img ", "<img " ++ style "max-width: 100%; display: block; margin: 1em auto;" ++ " ") ].

(** All sixteen, in order. *)
Definition styles : list (string * string) :=
  paragraph_style :: map heading_style [1; 2; 3; 4] ++ block_styles.

(** The tags that are replaced as a whole. *)
Definition bare_tags : list string :=
  ["<p>"; "<h1>"; "<h2>"; "<h3>"; "<h4>"; "<code>"; "<pre>"; "<ul>"; "<ol>"; "<li>";
   "<blockquote>"; "<table>"; "<th>"; "<td>"].

(** The tags that get the style as their first attribute. *)
Definition attribute_tags : list string := ["<a "; "<img "].

(** An opening angle bracket and no other after it. *)
Definition tagged (s : string) : bool :=
  match s with
  | EmptyString => false
  | String c w => Ascii.eqb c "<" && negb (mem_char "<" w)
  end.

(** The replacements from [tag] on neither match what they put in nor put
    in a bare [tag]. *)
Definition safe (tag : string) (steps : list (string * string)) : bool :=
  tagged tag &&
  forallb (fun t => tagged (fst t) && tagged (snd t) && negb (is_prefix tag (snd t))
                    && (String.length tag <=? String.length (snd t))%nat) steps.

(** Wherever [tag] starts in [s], [full] starts too. *)
Fixpoint every_at (tag full : string) (s : string) : bool :=
  (negb (is_prefix tag s) || is_prefix full s) &&
  match s with
  | EmptyString => true
  | String _ r => every_at tag full r
  end.

(** *** The commands *)

(** Unfolds the monad of scripts. *)
Ltac run_script :=
  cbv beta iota delta [mbind Script_bind mret Script_ret call sys_exit try_except] in *.

(** The endpoints addressed since [s], the token endpoint left out. *)
Definition operation_urls (s s' : state) : list string :=
  List.filter (fun u => negb (String.eqb u (BASE_URL ++ "/token")))
    (map rq_url (requests_since s s')).

(** The endpoints of a release, in order. *)
Definition pipeline : list string :=
  [BASE_URL ++ "/material/add_material"; BASE_URL ++ "/draft/add";
   BASE_URL ++ "/freepublish/submit"].



(** The request of lines 153-170: one article, its digest last and only if
    there is one. *)
Definition draft_request (token : json) (title author content : string)
    (thumb_media_id : json) (digest : string) : request :=
  {| rq_method := POST;
     rq_url := BASE_URL ++ "/draft/add";
     rq_params := [("access_token", token)];
     rq_body :=
       JsonBody (JObj [("articles", JArr [JObj (
         [("title", JStr title); ("author", JStr author); ("content", JStr content);
          ("thumb_media_id", thumb_media_id);
          ("need_open_comment", JNum 0); ("only_fans_can_comment", JNum 0)]
         ++ (if String.eqb digest "" then [] else [("digest", JStr digest)]))%list])]) |}.

(** *** Further scenarios *)


(** A platform that answers the upload, the draft and the publish request
    as on success, and every other request with a token. *)
Definition newsroom : env :=
  scenario 1000 (fun rq =>
    if String.eqb (rq_url rq) (BASE_URL ++ "/material/add_material")
    then Ok (JObj [("media_id", JStr "thumb-1"); ("url", JStr "http://mmbiz/t1")])
    else if String.eqb (rq_url rq) (BASE_URL ++ "/draft/add")
    then Ok (JObj [("media_id", JStr "draft-1")])
    else if String.eqb (rq_url rq) (BASE_URL ++ "/freepublish/submit")
    then Ok (JObj [("errcode", JNum 0); ("errmsg", JStr "ok"); ("publish_id", JNum 2247)])
    else Ok (token_reply 7200)).



(** A renderer that wraps the text in a paragraph. *)
Definition one_paragraph (md_text : string) : string := "<p>" ++ md_text ++ "</p>".

(** ** The model on concrete inputs *)

Example dumps_array :
  dumps (JArr [JNum 1; JNull; JBool true; JNum (-300)]) = "[1, null, true, -300]".
Proof. reflexivity. Qed.

Example dumps_escapes :
  dumps (JStr (String "010"%char (String "233"%char "/")))
  = String dquote ("\n\u00e9/" ++ String dquote "").
Proof. reflexivity. Qed.

Example loads_array : loads " [1 , 2 ] " = Some (JArr [JNum 1; JNum 2]).
Proof. reflexivity. Qed.

Example loads_trailing_comma : loads "[1,]" = None.
Proof. reflexivity. Qed.

Example loads_leading_zero : loads "01" = None.
Proof. reflexivity. Qed.

Example loads_duplicate_key :
  loads ("{" ++ dumps_str "a" ++ ":1," ++ dumps_str "b" ++ ":2,"
             ++ dumps_str "a" ++ ":3}")
  = Some (JObj [("a", JNum 3); ("b", JNum 2)]).
Proof. reflexivity. Qed.

Example loads_cut_short : loads cut_short = None.
Proof. reflexivity. Qed.

Example repr_answer :
  py_repr (JObj invalid_credential)
  = "{'errcode': 40001, 'errmsg': 'invalid credential'}".
Proof. reflexivity. Qed.

Example path_name_last : path_name "wx/img/cover.png" = "cover.png".
Proof. reflexivity. Qed.

Example first_call_asks :
  fst (get_access_token false (scenario 1000 (fun _ => Ok (token_reply 7200)))
         empty_state) = Ok (JStr "tok1").
Proof. reflexivity. Qed.

Example second_call_hits :
  twice (scenario 1000 (fun _ => Ok (token_reply 7200))) empty_state
  = (Ok (JStr "tok1"), Ok (JStr "tok1"),
     tick (snd (get_access_token false
                  (scenario 1000 (fun _ => Ok (token_reply 7200))) empty_state))).
Proof. vm_compute. reflexivity. Qed.

(** ** The JSON codec: what is written is read back *)

Section Codec.

Lemma append_cons (x : ascii) (a b : string) : String x a ++ b = String x (a ++ b).
Proof. reflexivity. Qed.

Lemma append_assoc (a b c : string) : (a ++ b) ++ c = a ++ (b ++ c).
Proof.
  induction a as [|x a IH].
  - reflexivity.
  - rewrite !append_cons. now rewrite IH.
Qed.

(** Strings. *)



(** Integers. *)










End Codec.

(** ** The scanner and its fuel *)

Section Fuel.
Local Open Scope nat_scope.

Lemma skip_ws_length (s : string) : String.length (skip_ws s) <= String.length s.
Proof.
  induction s as [|c s IH]; cbn [skip_ws String.length]; [lia|].
  destruct (is_ws c); cbn [String.length]; lia.
Qed.

Lemma scan_string_length (s t r : string) :
  scan_string s = Some (t, r) -> String.length r < String.length s.
Proof.
  remember (String.length s) as n eqn:En. revert s t r En.
  induction n as [n IH] using lt_wf_ind. intros s t r En H.
  destruct s as [|c s]; [discriminate H|]. cbn [scan_string] in H.
  cbn [String.length] in En.
  assert (Hc : forall ch u, cons_result ch (scan_string u) = Some (t, r) ->
                 String.length u < n -> String.length r < n).
  { intros ch u Hu Hlt. unfold cons_result in Hu.
    destruct (scan_string u) as [[t' r']|] eqn:E; [|discriminate Hu].
    inversion Hu; subst r'. 
    pose proof (IH _ Hlt u t' r eq_refl E). lia. }
  destruct (Ascii.eqb c dquote).
  { inversion H; subst. lia. }
  destruct (Ascii.eqb c "\"%char).
  - destruct s as [|e0 s1]; [discriminate H|].
    destruct (Ascii.eqb e0 "u"%char).
    + destruct s1 as [|h1 [|h2 [|h3 [|h4 r2]]]]; try discriminate H.
      destruct (hex4 h1 h2 h3 h4) as [m|]; [|discriminate H].
      destruct (m <? 256)%N; [|discriminate H].
      apply Hc in H; cbn [String.length] in *; lia.
    + destruct (unescape e0); [|discriminate H].
      apply Hc in H; cbn [String.length] in *; lia.
  - destruct (N_of_ascii c <? 32)%N; [discriminate H|].
    apply Hc in H; cbn [String.length] in *; lia.
Qed.

Lemma scan_digits_length (s : string) :
  String.length (snd (scan_digits s)) <= String.length s.
Proof.
  induction s as [|c s IH]; cbn [scan_digits]; [cbn; lia|].
  destruct (digit_of c) as [dg|]; [|cbn; lia].
  destruct (scan_digits s) as [u r]. cbn [snd String.length] in *. lia.
Qed.

Lemma scan_nat_length (s r : string) (u : uint) :
  scan_nat s = Some (u, r) -> String.length r < String.length s.
Proof.
  destruct s as [|c s]; [discriminate|]. unfold scan_nat.
  destruct (Ascii.eqb c "0"%char).
  { intros H. inversion H; subst. cbn. lia. }
  destruct (digit_of c) as [dg|] eqn:Ed; [|discriminate].
  intros H. inversion H as [Hs]. cbn [scan_digits] in Hs. rewrite Ed in Hs.
  pose proof (scan_digits_length s) as Hl.
  destruct (scan_digits s) as [u' r']. inversion Hs; subst. cbn in *. lia.
Qed.

Lemma scan_number_length (s r : string) (n : Z) :
  scan_number s = Some (n, r) -> String.length r < String.length s.
Proof.
  destruct s as [|c s]; [discriminate|]. unfold scan_number.
  destruct (Ascii.eqb c "-"%char).
  - destruct (scan_nat s) as [[u r']|] eqn:E; [|discriminate].
    intros H. inversion H; subst. apply scan_nat_length in E. cbn. lia.
  - destruct (scan_nat (String c s)) as [[u r']|] eqn:E; [|discriminate].
    intros H. inversion H; subst. now apply scan_nat_length in E.
Qed.

Lemma strip_prefix_length (p s r : string) :
  strip_prefix p s = Some r -> String.length r + String.length p = String.length s.
Proof.
  revert s. induction p as [|a p IH]; intros s H.
  - inversion H. cbn. lia.
  - destruct s as [|b s]; [discriminate H|]. cbn [strip_prefix] in H.
    destruct (Ascii.eqb a b); [|discriminate H].
    apply IH in H. cbn [String.length]. lia.
Qed.

Lemma skip_ws_tail (s r : string) (c : ascii) :
  skip_ws s = String c r -> String.length r < String.length s.
Proof.
  intros H. pose proof (skip_ws_length s) as Hl. rewrite H in Hl. cbn in Hl. lia.
Qed.

Lemma parse_consumes (f : nat) :
  (forall s v r, parse_value f s = Some (v, r) -> String.length r < String.length s) /\
  (forall s vs r, parse_elems f s = Some (vs, r) -> String.length r < String.length s) /\
  (forall s ps r, parse_members f s = Some (ps, r) -> String.length r < String.length s).
Proof.
  induction f as [|f (IHv & IHe & IHm)]; [repeat split; discriminate|].
  split; [|split].
  - intros s v r H. destruct s as [|c s]; [discriminate H|].
    cbn [parse_value] in H.
    destruct (Ascii.eqb c dquote).
    { destruct (scan_string s) as [[t r']|] eqn:E; [|discriminate H].
      inversion H; subst. apply scan_string_length in E. cbn. lia. }
    destruct (Ascii.eqb c "{"%char).
    { destruct (skip_ws s) as [|c' r'] eqn:Ew; [discriminate H|].
      pose proof (skip_ws_length s) as Hl. rewrite Ew in Hl. cbn [String.length] in *.
      destruct (Ascii.eqb c' "}"%char).
      { inversion H; subst. lia. }
      destruct (parse_members f (String c' r')) as [[ps rest]|] eqn:E; [|discriminate H].
      inversion H; subst. apply IHm in E. cbn [String.length] in E. lia. }
    destruct (Ascii.eqb c "["%char).
    { destruct (skip_ws s) as [|c' r'] eqn:Ew; [discriminate H|].
      pose proof (skip_ws_length s) as Hl. rewrite Ew in Hl. cbn [String.length] in *.
      destruct (Ascii.eqb c' "]"%char).
      { inversion H; subst. lia. }
      destruct (parse_elems f (String c' r')) as [[ps rest]|] eqn:E; [|discriminate H].
      inversion H; subst. apply IHe in E. cbn [String.length] in E. lia. }
    destruct (strip_prefix "null" (String c s)) as [r1|] eqn:E1.
    { inversion H; subst. apply strip_prefix_length in E1. cbn in *. lia. }
    destruct (strip_prefix "true" (String c s)) as [r2|] eqn:E2.
    { inversion H; subst. apply strip_prefix_length in E2. cbn in *. lia. }
    destruct (strip_prefix "false" (String c s)) as [r3|] eqn:E3.
    { inversion H; subst. apply strip_prefix_length in E3. cbn in *. lia. }
    destruct (scan_number (String c s)) as [[n r']|] eqn:E; [|discriminate H].
    inversion H; subst. now apply scan_number_length in E.
  - intros s vs r H. cbn [parse_elems] in H.
    destruct (parse_value f s) as [[v r1]|] eqn:E; [|discriminate H].
    apply IHv in E.
    destruct (skip_ws r1) as [|c r2] eqn:Ew; [discriminate H|].
    apply skip_ws_tail in Ew.
    destruct (Ascii.eqb c "]"%char).
    { inversion H; subst. lia. }
    destruct (Ascii.eqb c ","%char); [|discriminate H].
    destruct (parse_elems f (skip_ws r2)) as [[vs' r3]|] eqn:E3; [|discriminate H].
    inversion H; subst. apply IHe in E3. pose proof (skip_ws_length r2). lia.
  - intros s ps r H. cbn [parse_members] in H.
    destruct s as [|q s]; [discriminate H|].
    destruct (negb (Ascii.eqb q dquote)); [discriminate H|].
    destruct (scan_string s) as [[k r1]|] eqn:Ek; [|discriminate H].
    apply scan_string_length in Ek.
    destruct (skip_ws r1) as [|c r2] eqn:Ew; [discriminate H|].
    apply skip_ws_tail in Ew.
    destruct (negb (Ascii.eqb c ":"%char)); [discriminate H|].
    destruct (parse_value f (skip_ws r2)) as [[v r3]|] eqn:E; [|discriminate H].
    apply IHv in E. pose proof (skip_ws_length r2).
    destruct (skip_ws r3) as [|c' r4] eqn:Ew3; [discriminate H|].
    apply skip_ws_tail in Ew3.
    destruct (Ascii.eqb c' "}"%char).
    { inversion H; subst. cbn [String.length]. lia. }
    destruct (Ascii.eqb c' ","%char); [|discriminate H].
    destruct (parse_members f (skip_ws r4)) as [[ps' r5]|] eqn:E5; [|discriminate H].
    inversion H; subst. apply IHm in E5. pose proof (skip_ws_length r4).
    cbn [String.length]. lia.
Qed.

Lemma parse_fuel (f : nat) :
  (forall s f', 2 * String.length s + 1 <= f -> f <= f' ->
     parse_value f' s = parse_value f s) /\
  (forall s f', 2 * String.length s + 2 <= f -> f <= f' ->
     parse_elems f' s = parse_elems f s) /\
  (forall s f', 2 * String.length s + 2 <= f -> f <= f' ->
     parse_members f' s = parse_members f s).
Proof.
  induction f as [|f (IHv & IHe & IHm)]; [repeat split; intros; lia|].
  split; [|split]; intros s f' Hb Hf; (destruct f' as [|f']; [lia|]).
  - destruct s as [|c s]; [reflexivity|]. cbn [parse_value String.length] in *.
    destruct (Ascii.eqb c dquote); [reflexivity|].
    destruct (Ascii.eqb c "{"%char).
    { destruct (skip_ws s) as [|c' r'] eqn:Ew; [reflexivity|].
      pose proof (skip_ws_length s) as Hl. rewrite Ew in Hl.
      destruct (Ascii.eqb c' "}"%char); [reflexivity|].
      rewrite (IHm (String c' r') f') by lia. reflexivity. }
    destruct (Ascii.eqb c "["%char); [|reflexivity].
    destruct (skip_ws s) as [|c' r'] eqn:Ew; [reflexivity|].
    pose proof (skip_ws_length s) as Hl. rewrite Ew in Hl.
    destruct (Ascii.eqb c' "]"%char); [reflexivity|].
    rewrite (IHe (String c' r') f') by lia. reflexivity.
  - cbn [parse_elems]. rewrite (IHv s f') by lia.
    destruct (parse_value f s) as [[v r1]|] eqn:E; [|reflexivity].
    apply (proj1 (parse_consumes f)) in E.
    destruct (skip_ws r1) as [|c r2] eqn:Ew; [reflexivity|].
    apply skip_ws_tail in Ew.
    destruct (Ascii.eqb c "]"%char); [reflexivity|].
    destruct (Ascii.eqb c ","%char); [|reflexivity].
    pose proof (skip_ws_length r2).
    rewrite (IHe (skip_ws r2) f') by lia. reflexivity.
  - cbn [parse_members]. destruct s as [|q s]; [reflexivity|].
    destruct (negb (Ascii.eqb q dquote)); [reflexivity|].
    destruct (scan_string s) as [[k r1]|] eqn:Ek; [|reflexivity].
    apply scan_string_length in Ek.
    destruct (skip_ws r1) as [|c r2] eqn:Ew; [reflexivity|].
    apply skip_ws_tail in Ew.
    destruct (negb (Ascii.eqb c ":"%char)); [reflexivity|].
    pose proof (skip_ws_length r2). cbn [String.length] in Hb.
    rewrite (IHv (skip_ws r2) f') by lia.
    destruct (parse_value f (skip_ws r2)) as [[v r3]|] eqn:E; [|reflexivity].
    apply (proj1 (parse_consumes f)) in E.
    destruct (skip_ws r3) as [|c' r4] eqn:Ew3; [reflexivity|].
    apply skip_ws_tail in Ew3.
    destruct (Ascii.eqb c' "}"%char); [reflexivity|].
    destruct (Ascii.eqb c' ","%char); [|reflexivity].
    pose proof (skip_ws_length r4).
    rewrite (IHm (skip_ws r4) f') by lia. reflexivity.
Qed.

(** [loads] never fails for want of fuel: more of it changes nothing. *)
Lemma loads_fuel (s : string) (f : nat) :
  2 * String.length s + 2 <= f ->
  parse_value f (skip_ws s) = parse_value (2 * String.length s + 2) (skip_ws s).
Proof.
  intros H. pose proof (skip_ws_length s).
  apply (proj1 (parse_fuel (2 * String.length s + 2))); lia.
Qed.

End Fuel.

(** ** Every value written is read back *)

Section RoundTrip.













End RoundTrip.

(** ** Running the computations *)

Lemma credentials_rejected (e : env) (s : state) :
  truthy (APP_ID e) = false \/ truthy (APP_SECRET e) = false ->
  _check_credentials e s = (Raise (ValueError credentials_message), s).
Proof.
  intros H. unfold _check_credentials. run.
  destruct H as [-> | ->]; [reflexivity|]. now rewrite orb_true_r.
Qed.

(** *** The request to the token endpoint (lines 43-58) *)


Lemma request_token_refused (e : env) (s : state) (d : list (string * json)) :
  remote e (sent s) (token_request e) = Ok (JObj d) ->
  dict_get "access_token" d = None ->
  request_token e s
  = (Raise (RuntimeError ("获取 access_token 失败: " ++ py_repr (JObj d))),
     log_request (token_request e) s).
Proof.
  intros Ha Ht. unfold request_token. run.
  rewrite Ha. run. unfold dict_mem. rewrite Ht. reflexivity.
Qed.

Lemma request_token_sends (e : env) (s : state) :
  sent (snd (request_token e s)) = (sent s ++ [token_request e])%list.
Proof.
  unfold request_token. run.
  repeat case_match; simplify_eq; try reflexivity.
Qed.

Lemma request_token_fs (e : env) (s : state) (p : string) :
  p <> TOKEN_CACHE ->
  fs (snd (request_token e s)) !! p = fs s !! p.
Proof.
  intros Hp. unfold request_token. run.
  repeat case_match; simplify_eq; try reflexivity.
  all: cbn; rewrite lookup_insert_ne; auto.
Qed.

Lemma request_token_raise (e : env) (s s' : state) (x : exn) :
  request_token e s = (Raise x, s') -> fs s' = fs s.
Proof.
  unfold request_token. run. intros H.
  repeat case_match; simplify_eq; try reflexivity.
Qed.

(** *** [get_access_token], path by path *)

(** With both identity values set. *)
Section ValidIdentity.

Context (e : env) (Hvalid : valid_identity e).

Lemma credentials_accepted (s : state) : _check_credentials e s = (Ok tt, s).
Proof.
  destruct Hvalid as [H1 H2]. unfold _check_credentials. run. now rewrite H1, H2.
Qed.



Lemma fresh_record_returned (s : state) (tok : json) (exp : Z) :
  holds_record s tok exp -> clock e (ticks s) < exp ->
  get_access_token false e s = (Ok tok, tick s).
Proof.
  intros (txt & d & Hf & Hl & Ht & He) Hlt. unfold get_access_token.
  cbv beta iota delta [mbind M_bind]. rewrite (credentials_accepted s).
  cbn [negb]. repeat (run; progress rewrite ?Hf, ?Hl). run. unfold dict_get_or. rewrite He.
  cbn [as_number]. run. apply Z.ltb_lt in Hlt. rewrite Hlt, Ht. reflexivity.
Qed.




End ValidIdentity.

Lemma invalid_identity_fails (e : env) (s : state) (force : bool) :
  truthy (APP_ID e) = false \/ truthy (APP_SECRET e) = false ->
  get_access_token force e s = (Raise (ValueError credentials_message), s).
Proof.
  intros H. unfold get_access_token.
  cbv beta iota delta [mbind M_bind]. now rewrite (credentials_rejected e s H).
Qed.

(** Every run is one of: no request at all and the files as they were, or
    the run of [request_token] from the state reached (the clock read or not). *)
Lemma get_access_token_cases (e : env) (s : state) (force : bool) :
  (exists r, get_access_token force e s = (r, s)) \/
  (exists r, get_access_token force e s = (r, tick s)) \/
  get_access_token force e s = request_token e s \/
  get_access_token force e s = request_token e (tick s).
Proof.
  unfold get_access_token. cbv beta iota delta [mbind M_bind].
  destruct (_check_credentials e s) as [[[]|x] s1] eqn:Hc.
  2:{ left. unfold _check_credentials in Hc. run. case_match; simplify_eq. eauto. }
  assert (s1 = s) as ->.
  { unfold _check_credentials in Hc. run. case_match; simplify_eq. reflexivity. }
  destruct force; cbn [negb]; run;
    repeat (case_match; run; simplify_eq);
    solve [ left; eauto | right; left; eauto
          | right; right; left; reflexivity
          | right; right; right; reflexivity ].
Qed.

(** *** What every run has in common *)

Lemma at_most_one_request (e : env) (s : state) (force : bool) :
  sent (snd (get_access_token force e s)) = sent s \/
  sent (snd (get_access_token force e s)) = (sent s ++ [token_request e])%list.
Proof.
  destruct (get_access_token_cases e s force) as [[r H]|[[r H]|[H|H]]]; rewrite H.
  - now left.
  - now left.
  - right. apply request_token_sends.
  - right. apply (request_token_sends e (tick s)).
Qed.

Lemma other_files_untouched (e : env) (s : state) (force : bool) (p : string) :
  p <> TOKEN_CACHE ->
  fs (snd (get_access_token force e s)) !! p = fs s !! p.
Proof.
  intros Hp.
  destruct (get_access_token_cases e s force) as [[r H]|[[r H]|[H|H]]]; rewrite H;
    try reflexivity.
  - now apply request_token_fs.
  - now apply (request_token_fs e (tick s)).
Qed.

Lemma failure_keeps_files (e : env) (s s' : state) (force : bool) (x : exn) :
  get_access_token force e s = (Raise x, s') -> fs s' = fs s.
Proof.
  destruct (get_access_token_cases e s force) as [[r H]|[[r H]|[H|H]]]; rewrite H; intros E.
  - now inversion E.
  - now inversion E.
  - now apply request_token_raise in E.
  - now apply request_token_raise in E.
Qed.



Lemma app_one_ne {A : Type} (l : list A) (x : A) : (l ++ [x])%list <> l.
Proof.
  intros H. apply (f_equal (@length A)) in H. rewrite length_app in H.
  cbn [length] in H. lia.
Qed.

Lemma scenario_valid now answer : valid_identity (scenario now answer).
Proof. split; reflexivity. Qed.

Lemma warm_state_holds : holds_record warm_state (JStr "tok0") 2000.
Proof.
  exists (dumps (cached_token (JStr "tok0") 2000)),
         [("access_token", JStr "tok0"); ("expires_at", JNum 2000)].
  repeat split; vm_compute; reflexivity.
Qed.


Lemma upload_missing (e : env) (s : state) (p : string) :
  fs s !! p = None -> p <> TOKEN_CACHE ->
  forall s1 tok, get_access_token false e s = (Ok tok, s1) -> fs s1 !! p = None.
Proof.
  intros Hf Hp s1 tok Hg. pose proof (other_files_untouched e s false p Hp) as H.
  rewrite Hg in H. cbn [snd] in H. congruence.
Qed.

Lemma is_prefix_refl (s : string) : is_prefix s s = true.
Proof. induction s as [|c s IH]; [reflexivity|]. cbn. now rewrite Ascii.eqb_refl. Qed.

Lemma contains_suffix (pre sub : string) : contains sub (pre ++ sub) = true.
Proof.
  induction pre as [|c pre IH].
  - change ("" ++ sub) with sub. destruct sub; cbn; [reflexivity|].
    now rewrite Ascii.eqb_refl, is_prefix_refl.
  - rewrite append_cons. cbn [contains]. rewrite IH. apply orb_true_r.
Qed.

(** ** The properties of the specification *)









(** C4 (amended).  For a path that does not exist (and is not the cache
    file), the three upload operations obtain the token first and then
    raise the file-not-found error, before any upload request: the only
    request they may send is the one to the token endpoint, a failure to
    obtain the token is raised instead, and with a fresh cached token no
    request is sent at all. *)
Theorem missing_file_fails_after_token
    (e : env) (s : state) (p : string) (permanent : bool) :
  fs s !! p = None -> p <> TOKEN_CACHE ->
  upload_image p permanent e s = token_then_not_found p e s /\
  upload_thumb_image p e s = token_then_not_found p e s /\
  upload_content_image p e s = token_then_not_found p e s /\
  (sent (snd (token_then_not_found p e s)) = sent s \/
   sent (snd (token_then_not_found p e s)) = (sent s ++ [token_request e])%list) /\
  (forall tok exp,
     valid_identity e -> holds_record s tok exp -> clock e (ticks s) < exp ->
     token_then_not_found p e s
     = (Raise (FileNotFoundError ("图片不存在: " ++ p)), tick s)).
Proof.
  intros Hf Hp. pose proof (upload_missing e s p Hf Hp) as Hm.
  pose proof (at_most_one_request e s false) as Hs.
  unfold upload_image, upload_thumb_image, upload_content_image,
    token_then_not_found.
  cbv beta iota delta [mbind M_bind path_exists].
  destruct (get_access_token false e s) as [[tok|x] s1] eqn:Hg; cbn [snd] in *.
  - rewrite (Hm s1 tok eq_refl). cbn [negb]. unfold raise.
    repeat split; try reflexivity; try exact Hs.
    intros tok' exp Hv Hr Hlt. rewrite (fresh_record_returned e Hv s tok' exp Hr Hlt) in Hg.
    now inversion Hg.
  - repeat split; try reflexivity; try exact Hs.
    intros tok' exp Hv Hr Hlt. rewrite (fresh_record_returned e Hv s tok' exp Hr Hlt) in Hg.
    discriminate Hg.
Qed.

Lemma missing_file_fails_after_token_witness :
  upload_image "cover.png" false (scenario 1000 (fun _ => Ok (token_reply 7200))) warm_state
  = (Raise (FileNotFoundError ("图片不存在: " ++ "cover.png")), tick warm_state).
Proof.
  destruct (missing_file_fails_after_token
              (scenario 1000 (fun _ => Ok (token_reply 7200))) warm_state "cover.png" false)
    as (H1 & _ & _ & _ & H5).
  - vm_compute. reflexivity.
  - vm_compute. discriminate.
  - rewrite H1. apply (H5 (JStr "tok0") 2000).
    + apply scenario_valid.
    + apply warm_state_holds.
    + vm_compute. reflexivity.
Defined.

(** C4 as stated fails: with no cache file, each of the three uploads of a
    path that does not exist raises the file-not-found error only after
    the request to the token endpoint has been sent. *)
Lemma upload_asks_token_endpoint_first :
  fs empty_state !! "cover.png" = None /\
  upload_image "cover.png" false (scenario 1000 (fun _ => Ok (token_reply 7200))) empty_state
  = (Raise (FileNotFoundError "图片不存在: cover.png"),
     snd (get_access_token false (scenario 1000 (fun _ => Ok (token_reply 7200))) empty_state)) /\
  upload_thumb_image "cover.png" (scenario 1000 (fun _ => Ok (token_reply 7200))) empty_state
  = (Raise (FileNotFoundError "图片不存在: cover.png"),
     snd (get_access_token false (scenario 1000 (fun _ => Ok (token_reply 7200))) empty_state)) /\
  upload_content_image "cover.png" (scenario 1000 (fun _ => Ok (token_reply 7200))) empty_state
  = (Raise (FileNotFoundError "图片不存在: cover.png"),
     snd (get_access_token false (scenario 1000 (fun _ => Ok (token_reply 7200))) empty_state)) /\
  sent (snd (get_access_token false (scenario 1000 (fun _ => Ok (token_reply 7200))) empty_state))
  = [token_request (scenario 1000 (fun _ => Ok (token_reply 7200)))] /\
  network_calls
    (snd (upload_image "cover.png" false
            (scenario 1000 (fun _ => Ok (token_reply 7200))) empty_state)) = 1%nat.
Proof.
  repeat split; vm_compute; reflexivity.
Qed.



(** C6.  If either identity value is unset (or empty), [get_access_token]
    raises the configuration error with the state untouched, so before
    any request, and the message names both [WECHAT_APP_ID] and
    [WECHAT_APP_SECRET]. *)
Theorem missing_identity_fails_first (e : env) (s : state) (force : bool) :
  truthy (APP_ID e) = false \/ truthy (APP_SECRET e) = false ->
  get_access_token force e s = (Raise (ValueError credentials_message), s) /\
  contains "WECHAT_APP_ID" credentials_message = true /\
  contains "WECHAT_APP_SECRET" credentials_message = true.
Proof.
  intros H. split; [now apply invalid_identity_fails|]. split; vm_compute; reflexivity.
Qed.

Lemma missing_identity_fails_first_witness :
  get_access_token false no_secret empty_state
  = (Raise (ValueError credentials_message), empty_state).
Proof.
  apply (missing_identity_fails_first no_secret empty_state false).
  right. reflexivity.
Defined.

(** C7.  Once the token is obtained and the platform has answered the
    publish request with a JSON object, [publish] raises if and only if
    the answer has an [errcode] that is not zero ([false] counts as zero,
    as Python has it); what it raises is the provider error whose message
    ends with the answer as received.  For the answer
    [{errcode: 40001, errmsg: "invalid credential"}] it raises, and the
    message contains [40001]. *)
Theorem publish_raises_on_errcode
    (e : env) (s s1 : state) (media_id tok : json) (d : list (string * json)) :
  get_access_token false e s = (Ok tok, s1) ->
  remote e (sent s1) (publish_request tok media_id) = Ok (JObj d) ->
  let failure := RuntimeError ("发布失败: " ++ py_repr (JObj d)) in
  let s2 := log_request (publish_request tok media_id) s1 in
  ((exists x, fst (publish media_id e s) = Raise x) <->
   (exists v, dict_get "errcode" d = Some v /\ v <> JNum 0 /\ v <> JBool false)) /\
  (forall x, fst (publish media_id e s) = Raise x ->
             publish media_id e s = (Raise failure, s2)) /\
  contains (py_repr (JObj d)) ("发布失败: " ++ py_repr (JObj d)) = true /\
  (d = invalid_credential ->
   publish media_id e s = (Raise failure, s2) /\
   contains "40001" ("发布失败: " ++ py_repr (JObj d)) = true).
Proof.
  intros Hg Ha failure s2. subst failure s2.
  assert (Hp : publish media_id e s
               = if py_ne_num (dict_get_or "errcode" d (JNum 0)) 0
                 then (Raise (RuntimeError ("发布失败: " ++ py_repr (JObj d))),
                       log_request (publish_request tok media_id) s1)
                 else (Ok (py_str (dict_get_or "publish_id" d (JStr "unknown"))),
                       emit ("  文章已提交发布: publish_id="
                             ++ py_str (dict_get_or "publish_id" d (JStr "unknown")))
                         (log_request (publish_request tok media_id) s1))).
  { unfold publish. cbv beta iota delta [mbind M_bind]. rewrite Hg.
    run. rewrite Ha. run. destruct (py_ne_num _ 0); reflexivity. }
  assert (Hne : py_ne_num (dict_get_or "errcode" d (JNum 0)) 0 = true <->
                exists v, dict_get "errcode" d = Some v /\ v <> JNum 0 /\ v <> JBool false).
  { unfold dict_get_or. destruct (dict_get "errcode" d) as [v|].
    - split.
      + intros H. exists v. split; [reflexivity|].
        split; intros ->; discriminate H.
      + intros (v' & Hv & H0 & Hf). inversion Hv; subst v'.
        destruct v as [|[]|n| | |]; try reflexivity.
        * now destruct Hf.
        * unfold py_ne_num. cbn [as_number]. destruct (Z.eqb_spec n 0); [subst; now destruct H0 | reflexivity].
    - split; [discriminate|]. intros (v & Hv & _). discriminate Hv. }
  rewrite Hp. split; [|split; [|split]].
  - rewrite <- Hne. destruct (py_ne_num _ 0); cbn [fst]; split; eauto.
    + intros [x Hx]. discriminate Hx.
    + discriminate.
  - intros x. destruct (py_ne_num _ 0); cbn [fst]; [reflexivity | discriminate].
  - apply contains_suffix.
  - intros ->. split; vm_compute; reflexivity.
Qed.

Lemma publish_raises_on_errcode_witness :
  publish (JStr "draft1") (publisher (JObj invalid_credential)) empty_state
  = (Raise (RuntimeError ("发布失败: " ++ py_repr (JObj invalid_credential))),
     log_request (publish_request (JStr "tok1") (JStr "draft1"))
       (snd (get_access_token false (publisher (JObj invalid_credential)) empty_state)))
  /\ contains "40001" ("发布失败: " ++ py_repr (JObj invalid_credential)) = true.
Proof.
  apply (publish_raises_on_errcode
           (publisher (JObj invalid_credential)) empty_state
           (snd (get_access_token false (publisher (JObj invalid_credential)) empty_state))
           (JStr "draft1") (JStr "tok1") invalid_credential).
  - vm_compute. reflexivity.
  - vm_compute. reflexivity.
  - reflexivity.
Defined.



(** C9.  If the token endpoint is asked and its answer has no
    [access_token] field, [get_access_token] raises the provider error
    with the answer in its message, and the files, the cache file among
    them, are exactly as before the call. *)
Theorem refused_token_keeps_cache
    (e : env) (s s' : state) (force : bool) (r : result json)
    (d : list (string * json)) :
  get_access_token force e s = (r, s') ->
  sent s' <> sent s ->
  remote e (sent s) (token_request e) = Ok (JObj d) ->
  dict_get "access_token" d = None ->
  r = Raise (RuntimeError ("获取 access_token 失败: " ++ py_repr (JObj d))) /\
  fs s' = fs s.
Proof.
  intros Hg Hs Ha Ht.
  destruct (get_access_token_cases e s force) as [[r0 H]|[[r0 H]|[H|H]]]; rewrite H in Hg.
  - inversion Hg; subst. now destruct Hs.
  - inversion Hg; subst. now destruct Hs.
  - rewrite (request_token_refused e s d Ha Ht) in Hg. inversion Hg; subst.
    split; reflexivity.
  - rewrite (request_token_refused e (tick s) d Ha Ht) in Hg. inversion Hg; subst.
    split; reflexivity.
Qed.

Lemma refused_token_keeps_cache_witness :
  fs (snd (get_access_token true (scenario 1000 (fun _ => Ok refusal)) warm_state))
  = fs warm_state.
Proof.
  apply (refused_token_keeps_cache
           (scenario 1000 (fun _ => Ok refusal)) warm_state
           (snd (get_access_token true (scenario 1000 (fun _ => Ok refusal)) warm_state))
           true
           (fst (get_access_token true (scenario 1000 (fun _ => Ok refusal)) warm_state))
           [("errcode", JNum 40013); ("errmsg", JStr "invalid appid")]).
  - vm_compute. reflexivity.
  - vm_compute. discriminate.
  - vm_compute. reflexivity.
  - vm_compute. reflexivity.
Defined.

(** C10.  If the answer to the publish request has no [errcode] (or
    [errcode] 0) and no [publish_id], [publish] does not raise: it prints
    its line and returns the string ["unknown"]. *)
Theorem publish_without_id_returns_unknown
    (e : env) (s s1 : state) (media_id tok : json) (d : list (string * json)) :
  get_access_token false e s = (Ok tok, s1) ->
  remote e (sent s1) (publish_request tok media_id) = Ok (JObj d) ->
  dict_get "errcode" d = None \/ dict_get "errcode" d = Some (JNum 0) ->
  dict_get "publish_id" d = None ->
  publish media_id e s
  = (Ok "unknown",
     emit "  文章已提交发布: publish_id=unknown"
       (log_request (publish_request tok media_id) s1)).
Proof.
  intros Hg Ha He Hp. unfold publish. cbv beta iota delta [mbind M_bind].
  rewrite Hg. run. rewrite Ha. run. unfold dict_get_or. rewrite Hp.
  destruct He as [-> | ->]; reflexivity.
Qed.

Lemma publish_without_id_returns_unknown_witness :
  fst (publish (JStr "draft1") (publisher (JObj [("errcode", JNum 0); ("errmsg", JStr "ok")]))
         empty_state) = Ok "unknown".
Proof.
  rewrite (publish_without_id_returns_unknown
           (publisher (JObj [("errcode", JNum 0); ("errmsg", JStr "ok")])) empty_state
           (snd (get_access_token false
                   (publisher (JObj [("errcode", JNum 0); ("errmsg", JStr "ok")])) empty_state))
           (JStr "draft1") (JStr "tok1") [("errcode", JNum 0); ("errmsg", JStr "ok")]).
  - reflexivity.
  - vm_compute. reflexivity.
  - vm_compute. reflexivity.
  - right. reflexivity.
  - reflexivity.
Defined.

(** ** Further properties of wx/wechat.py *)

(** *** Every call of [get_access_token] *)

(** The request to the token endpoint prints nothing and reads the clock
    at most once. *)
Lemma request_token_quiet (e : env) (s : state) :
  stdout (snd (request_token e s)) = stdout s /\
  (ticks s <= ticks (snd (request_token e s)) <= S (ticks s))%nat.
Proof.
  unfold request_token. run.
  repeat case_match; simplify_eq; cbn; split; try reflexivity; lia.
Qed.

(** No call prints, and each reads the clock at most twice. *)
Lemma token_call_quiet (e : env) (s : state) (force : bool) :
  stdout (snd (get_access_token force e s)) = stdout s /\
  (ticks s <= ticks (snd (get_access_token force e s)) <= ticks s + 2)%nat.
Proof.
  destruct (get_access_token_cases e s force) as [[r H]|[[r H]|[H|H]]]; rewrite H.
  - cbn. split; [reflexivity|lia].
  - cbn. split; [reflexivity|lia].
  - destruct (request_token_quiet e s) as [Ho Ht]. split; [exact Ho|lia].
  - destruct (request_token_quiet e (tick s)) as [Ho Ht]. cbn in *. split; [exact Ho|lia].
Qed.

(** X1.  Whatever the identity values, the cache file, the clock and the
    platform: a call of [get_access_token] sends no request or exactly
    one, the one to the token endpoint; it changes no file other than the
    cache file; when it raises, every file, the cache file included, is as
    it was; it prints nothing and reads the clock at most twice. *)
Theorem token_call_footprint (e : env) (s : state) (force : bool) :
  let r := fst (get_access_token force e s) in
  let s' := snd (get_access_token force e s) in
  (sent s' = sent s \/ sent s' = (sent s ++ [token_request e])%list) /\
  (forall p, p <> TOKEN_CACHE -> fs s' !! p = fs s !! p) /\
  (forall x, r = Raise x -> fs s' = fs s) /\
  stdout s' = stdout s /\
  (ticks s <= ticks s' <= ticks s + 2)%nat.
Proof.
  cbv zeta. split; [apply at_most_one_request|].
  split; [intros p Hp; now apply other_files_untouched|].
  split; [|apply token_call_quiet].
  intros x Hx. destruct (get_access_token force e s) as [r s'] eqn:Hg.
  cbn [fst snd] in *. subst r. now apply failure_keeps_files in Hg.
Qed.

(** X2.  A cache file that decodes but has not the shape of a record is
    fatal to [get_access_token()], once the clock has been read and
    without any request: a JSON value that is not an object raises the
    attribute error (of [cache.get]), an [expires_at] that is not a number
    the type error of the comparison, and a record that is fresh but has no
    [access_token] the key error. *)
Theorem ill_shaped_cache_is_fatal (e : env) (s : state) (txt : string) (v : json) :
  valid_identity e -> fs s !! TOKEN_CACHE = Some txt -> loads txt = Some v ->
  ((forall d, v <> JObj d) ->
   get_access_token false e s = (Raise AttributeError, tick s)) /\
  (forall d x, v = JObj d -> dict_get "expires_at" d = Some x -> as_number x = None ->
   get_access_token false e s = (Raise TypeError, tick s)) /\
  (forall d exp, v = JObj d ->
     as_number (dict_get_or "expires_at" d (JNum 0)) = Some exp ->
     clock e (ticks s) < exp -> dict_get "access_token" d = None ->
   get_access_token false e s = (Raise (KeyError "access_token"), tick s)).
Proof.
  intros Hv Hf Hl.
  assert (Hrun : get_access_token false e s
    = (cached ← (now ← time_time;
                 expires_at ← py_get v "expires_at" (JNum 0);
                 fresh ← py_lt now expires_at;
                 if (fresh : bool) then tok ← py_getitem v "access_token"; mret (Some tok)
                 else mret None);
       match cached with Some tok => mret tok | None => request_token end) e s).
  { unfold get_access_token. cbv beta iota delta [mbind M_bind].
    rewrite (credentials_accepted e Hv s). cbn [negb].
    repeat (run; progress rewrite ?Hf, ?Hl). reflexivity. }
  rewrite Hrun. clear Hrun. split; [|split].
  - intros Hno. run. destruct v; try reflexivity. now destruct (Hno d).
  - intros d x -> Hx Hn. run. unfold dict_get_or. rewrite Hx, Hn. reflexivity.
  - intros d exp -> He Hlt Ht. run. rewrite He. run.
    apply Z.ltb_lt in Hlt. rewrite Hlt, Ht. reflexivity.
Qed.

Lemma ill_shaped_cache_is_fatal_witness :
  get_access_token false (scenario 1000 (fun _ => Ok (token_reply 7200)))
    (set_file TOKEN_CACHE "[]" empty_state)
  = (Raise AttributeError, tick (set_file TOKEN_CACHE "[]" empty_state)).
Proof.
  refine (proj1 (ill_shaped_cache_is_fatal
                   (scenario 1000 (fun _ => Ok (token_reply 7200)))
                   (set_file TOKEN_CACHE "[]" empty_state) "[]" (JArr [])
                   (scenario_valid _ _) _ _) _).
  - reflexivity.
  - vm_compute. reflexivity.
  - intros d. discriminate.
Defined.





(** *** The six operations *)

(** An operation after its call of [get_access_token]: it stops there, or
    raises before its own request with the state the token call left, or
    sends its one request, to its endpoint and with the token obtained. *)
Lemma perform_after_token (op : operation) (e : env) (s : state) :
  match get_access_token false e s with
  | (Raise x, s1) => perform op e s = (Raise x, s1)
  | (Ok tok, s1) =>
      (exists x, perform op e s = (Raise x, s1) /\
                 exists p, uploaded op = Some p /\ fs s1 !! p = None) \/
      (exists r rq out,
          perform op e s
          = (r, {| fs := fs s1; ticks := ticks s1;
                   sent := (sent s1 ++ [rq])%list; stdout := out |}) /\
          rq_method rq = POST /\
          rq_url rq = endpoint op /\
          dict_get "access_token" (rq_params rq) = Some tok /\
          (forall p, uploaded op = Some p ->
             exists f mime, fs s1 !! p = Some f /\
                            rq_body rq = FileBody "media" (path_name p) f mime))
  end.
Proof.
  destruct (get_access_token false e s) as [[tok|x] s1] eqn:Hg.
  2:{ destruct op; cbn [perform]; unfold_operations;
      cbv beta iota delta [mbind M_bind]; rewrite Hg; reflexivity. }
  destruct op as [p [] | p | p | t c m a d | m | pid]; cbn [perform endpoint uploaded];
    unfold_operations;
    cbv beta iota delta [mbind M_bind]; rewrite Hg; run;
    repeat (case_match; run; simplify_eq);
    first [ left; eexists; split; [reflexivity | eexists; split; [reflexivity|assumption]]
          | right; eexists _, _, _; split; [reflexivity |];
            split; [reflexivity|]; split; [reflexivity|]; split; [reflexivity|];
            intros p0 Hp0;
            first [ discriminate Hp0
                  | injection Hp0 as <-; eexists _, _; split; [eassumption|reflexivity] ] ].
Qed.

(** X5.  If either identity value is unset or empty, each of the six
    operations (the three uploads, [create_draft], [publish],
    [get_publish_status]) raises the configuration error with the state
    untouched, whatever its arguments: nothing is sent, no file is looked
    at, the clock is not read, nothing is printed. *)
Theorem operations_need_identity (op : operation) (e : env) (s : state) :
  truthy (APP_ID e) = false \/ truthy (APP_SECRET e) = false ->
  perform op e s = (Raise (ValueError credentials_message), s).
Proof.
  intros H. pose proof (perform_after_token op e s) as Hp.
  now rewrite (invalid_identity_fails e s false H) in Hp.
Qed.

Lemma operations_need_identity_witness :
  perform (Publish (JStr "m1")) no_secret empty_state
  = (Raise (ValueError credentials_message), empty_state).
Proof.
  apply (operations_need_identity (Publish (JStr "m1")) no_secret empty_state).
  right. reflexivity.
Defined.

(** X6.  What any of the six operations sends.  The requests it adds are
    at most the one to the token endpoint, followed by at most one request
    of its own: a POST to its endpoint that carries as [access_token] the
    token [get_access_token] returned.  It returns only after its own
    request; if the token cannot be obtained it raises that error and
    sends nothing of its own; no file other than the cache file changes. *)
Theorem operation_footprint (op : operation) (e : env) (s : state) :
  let r := fst (perform op e s) in
  let s' := snd (perform op e s) in
  exists toks own,
    sent s' = (sent s ++ toks ++ own)%list /\
    (toks = [] \/ toks = [token_request e]) /\
    (own = [] \/
     exists rq tok, own = [rq] /\ rq_method rq = POST /\ rq_url rq = endpoint op /\
                    fst (get_access_token false e s) = Ok tok /\
                    dict_get "access_token" (rq_params rq) = Some tok) /\
    ((exists v, r = Ok v) -> own <> []) /\
    (forall x, fst (get_access_token false e s) = Raise x -> r = Raise x /\ own = []) /\
    (forall p, p <> TOKEN_CACHE -> fs s' !! p = fs s !! p).
Proof.
  cbv zeta. pose proof (perform_after_token op e s) as Hp.
  pose proof (at_most_one_request e s false) as Hs.
  pose proof (other_files_untouched e s false) as Hf.
  destruct (get_access_token false e s) as [[tok|x] s1] eqn:Hg; cbn [fst snd] in *.
  - assert (Ht : exists toks, sent s1 = (sent s ++ toks)%list /\
                              (toks = [] \/ toks = [token_request e])).
    { destruct Hs as [Hs|Hs]; [exists []|exists [token_request e]]; rewrite Hs.
      - rewrite app_nil_r. auto.
      - auto. }
    destruct Ht as (toks & Ht & Htoks).
    destruct Hp as [(x & Hp & _)|(r & rq & out & Hp & Hm & Hu & Hk & _)]; rewrite Hp;
      cbn [fst snd sent fs].
    + exists toks, []. rewrite app_nil_r. split; [exact Ht|]. split; [exact Htoks|].
      split; [now left|]. split; [intros [v Hv]; discriminate|].
      split; [intros y Hy; discriminate|]. exact Hf.
    + exists toks, [rq]. rewrite Ht, <- app_assoc. split; [reflexivity|].
      split; [exact Htoks|]. split; [right; exists rq, tok; auto|].
      split; [intros _; discriminate|].
      split; [intros y Hy; discriminate|]. exact Hf.
  - rewrite Hp. cbn [fst snd].
    destruct Hs as [Hs|Hs]; [exists [], []|exists [token_request e], []]; rewrite Hs;
      rewrite ?app_nil_r; (split; [reflexivity|]); (split; [auto|]);
      (split; [now left|]); (split; [intros [v Hv]; discriminate|]);
      (split; [intros y [= <-]; auto|]); exact Hf.
Qed.

Lemma check_answer_object (k failure line : string) (d : list (string * json))
    (e : env) (s : state) :
  check_answer k failure line (JObj d) e s
  = match dict_get k d with
    | Some v => (Ok v, emit (line ++ py_str v) s)
    | None => (Raise (RuntimeError (failure ++ py_repr (JObj d))), s)
    end.
Proof.
  unfold check_answer. run. unfold dict_mem.
  destruct (dict_get k d); reflexivity.
Qed.

Lemma check_answer_sent (k failure line : string) (data : json) (e : env) (s : state) :
  sent (snd (check_answer k failure line data e s)) = sent s.
Proof.
  unfold check_answer. run. repeat (case_match; simplify_eq); reflexivity.
Qed.

(** An operation that returns a field of the answer, once it has the
    token: it stops for want of the file, or sends a request and checks the
    answer. *)
Lemma perform_checks (op : operation) (e : env) (s s1 : state) (tok : json) (k : string) :
  get_access_token false e s = (Ok tok, s1) ->
  answer_key op = Some k ->
  (exists x, perform op e s = (Raise x, s1)) \/
  (exists rq,
     perform op e s
     = (data ← send rq; check_answer k (failure_text op) (success_line op) data) e s1).
Proof.
  intros Hg Hk.
  destruct op as [p perm | p | p | t c m a dg | m | pid]; cbn [answer_key] in Hk;
    try discriminate; injection Hk as <-;
    cbn [perform success_line failure_text]; unfold_operations;
    cbv beta iota delta [mbind M_bind]; rewrite Hg;
    cbv beta iota delta [path_exists read_text];
    (destruct (fs s1 !! p) as [f|] eqn:Hf || idtac); cbn [negb]; cbv beta iota;
    rewrite ?Hf; cbv beta iota;
    first [ left; eexists; reflexivity | right; eexists; reflexivity ].
Qed.

(** X7.  For the three uploads and [create_draft], once the operation's
    request has been answered with a JSON object, the field the operation
    returns ([url] for [upload_content_image], [media_id] for the others)
    alone decides the outcome.  If it is present its value is returned
    after one line is printed, whatever else the answer holds, an
    [errcode] included.  If it is absent the provider error is raised, its
    message the operation's text followed by the answer, and nothing is
    printed. *)
Theorem answer_field_decides
    (op : operation) (e : env) (s s1 s2 : state) (tok : json) (r : result json)
    (rq : request) (d : list (string * json)) (k : string) :
  get_access_token false e s = (Ok tok, s1) ->
  perform op e s = (r, s2) ->
  sent s2 = (sent s1 ++ [rq])%list ->
  remote e (sent s1) rq = Ok (JObj d) ->
  answer_key op = Some k ->
  match dict_get k d with
  | Some v =>
      r = Ok v /\ s2 = emit (success_line op ++ py_str v) (log_request rq s1)
  | None =>
      r = Raise (RuntimeError (failure_text op ++ py_repr (JObj d))) /\
      s2 = log_request rq s1
  end.
Proof.
  intros Hg Hp Hs Ha Hk.
  destruct (perform_checks op e s s1 tok k Hg Hk) as [[x Hx]|[rq0 Hq]].
  { rewrite Hx in Hp. injection Hp as <- <-. symmetry in Hs. now apply app_one_ne in Hs. }
  rewrite Hq in Hp. cbv beta iota delta [mbind M_bind send] in Hp.
  assert (E : rq0 = rq).
  { destruct (remote e (sent s1) rq0) as [data|x].
    - pose proof (check_answer_sent k (failure_text op) (success_line op) data e
                    (log_request rq0 s1)) as Hc.
      rewrite Hp in Hc. cbn [snd log_request sent] in Hc. rewrite Hs in Hc.
      now apply app_inj_tail in Hc as [_ Hc].
    - injection Hp as <- <-. cbn [log_request sent] in Hs.
      now apply app_inj_tail in Hs as [_ Hs]. }
  subst rq0. rewrite Ha, check_answer_object in Hp.
  destruct (dict_get k d); injection Hp as <- <-; split; reflexivity.
Qed.

Lemma answer_field_decides_witness :
  fst (perform (CreateDraft "t" "<p>x</p>" (JStr "thumb-1") "a" "") newsroom warm_state)
  = Ok (JStr "draft-1").
Proof.
  refine (proj1 (answer_field_decides
            (CreateDraft "t" "<p>x</p>" (JStr "thumb-1") "a" "") newsroom warm_state
            (tick warm_state)
            (snd (perform (CreateDraft "t" "<p>x</p>" (JStr "thumb-1") "a" "")
                    newsroom warm_state))
            (JStr "tok0")
            (fst (perform (CreateDraft "t" "<p>x</p>" (JStr "thumb-1") "a" "")
                    newsroom warm_state))
            (draft_request (JStr "tok0") "t" "a" "<p>x</p>" (JStr "thumb-1") "")
            [("media_id", JStr "draft-1")] "media_id" _ _ _ _ _)).
  - vm_compute. reflexivity.
  - now destruct (perform _ newsroom warm_state).
  - vm_compute. reflexivity.
  - reflexivity.
  - reflexivity.
Defined.

(** ** Python's text operations *)

Lemma append_nil_r (s : string) : s ++ "" = s.
Proof. induction s as [|c s IH]; [reflexivity|]. now rewrite append_cons, IH. Qed.

Lemma append_nil_l (s : string) : "" ++ s = s.
Proof. reflexivity. Qed.

Lemma strip_prefix_none (p s : string) :
  strip_prefix p s = None <-> is_prefix p s = false.
Proof.
  revert s. induction p as [|a p IH]; intros s.
  - cbn. split; discriminate.
  - destruct s as [|b s]; cbn; [tauto|].
    destruct (Ascii.eqb a b); cbn; [apply IH | tauto].
Qed.

Lemma strip_prefix_some (p s r : string) :
  strip_prefix p s = Some r -> s = p ++ r.
Proof.
  revert s. induction p as [|a p IH]; intros s H.
  - cbn in H. now inversion H.
  - destruct s as [|b s]; cbn in H; [discriminate|].
    destruct (Ascii.eqb_spec a b) as [->|]; [|discriminate].
    rewrite append_cons. f_equal. now apply IH.
Qed.

Lemma strip_prefix_app (p r : string) : strip_prefix p (p ++ r) = Some r.
Proof.
  induction p as [|a p IH]; [reflexivity|].
  rewrite append_cons. cbn. now rewrite Ascii.eqb_refl.
Qed.

Lemma is_prefix_app (p r : string) : is_prefix p (p ++ r) = true.
Proof.
  induction p as [|a p IH]; [reflexivity|]. rewrite append_cons. cbn.
  now rewrite Ascii.eqb_refl.
Qed.

Lemma is_prefix_app_l (p x y : string) :
  is_prefix p x = true -> is_prefix p (x ++ y) = true.
Proof.
  revert x. induction p as [|a p IH]; intros x H; [reflexivity|].
  destruct x as [|b x]; [discriminate|]. rewrite append_cons. cbn [is_prefix] in *.
  apply andb_true_iff in H as [-> H]. now apply IH.
Qed.

Lemma contains_unfold (sub s : string) :
  contains sub s
  = is_prefix sub s || match s with EmptyString => false | String _ r => contains sub r end.
Proof. destruct s; reflexivity. Qed.

Lemma contains_middle (pre sub post : string) : contains sub (pre ++ sub ++ post) = true.
Proof.
  induction pre as [|c pre IH].
  - change ("" ++ sub ++ post) with (sub ++ post). rewrite contains_unfold.
    now rewrite is_prefix_app.
  - rewrite append_cons. cbn [contains]. rewrite IH. apply orb_true_r.
Qed.

Lemma cut_unfold (sep s : string) :
  cut sep s
  = match strip_prefix sep s with
    | Some r => Some (EmptyString, r)
    | None =>
        match s with
        | EmptyString => None
        | String c r =>
            match cut sep r with Some (a, b) => Some (String c a, b) | None => None end
        end
    end.
Proof. destruct s; reflexivity. Qed.

(** Without an occurrence there is nothing to cut at, and conversely. *)
Lemma cut_none (sep s : string) : contains sep s = false -> cut sep s = None.
Proof.
  induction s as [|c s IH]; intros H; rewrite contains_unfold in H;
    apply orb_false_iff in H as [Hp Hc]; rewrite cut_unfold;
    apply strip_prefix_none in Hp; rewrite Hp; [reflexivity|].
  now rewrite (IH Hc).
Qed.

Lemma cut_some (sep s : string) :
  contains sep s = true -> exists a b, cut sep s = Some (a, b).
Proof.
  induction s as [|c s IH]; intros H; rewrite contains_unfold in H; rewrite cut_unfold;
    destruct (strip_prefix sep _) as [r|] eqn:Hs; eauto.
  - apply strip_prefix_none in Hs. rewrite Hs in H. discriminate.
  - apply strip_prefix_none in Hs. rewrite Hs in H. cbn in H.
    destruct (IH H) as (a & b & ->). eauto.
Qed.

(** What is cut is the text around the separator. *)
Lemma cut_parts (sep s a b : string) : cut sep s = Some (a, b) -> s = a ++ sep ++ b.
Proof.
  revert a. induction s as [|c s IH]; intros a H; rewrite cut_unfold in H;
    destruct (strip_prefix sep _) as [r|] eqn:Hs.
  - inversion H; subst. now apply strip_prefix_some in Hs.
  - discriminate.
  - inversion H; subst. now apply strip_prefix_some in Hs.
  - destruct (cut sep s) as [[a' b']|] eqn:Hc; [|discriminate].
    inversion H; subst. rewrite append_cons. f_equal. now apply IH.
Qed.

(** A separator of one character is cut at its first occurrence. *)
Lemma cut_char (c : ascii) (k r : string) :
  mem_char c k = false -> cut (String c "") (k ++ String c r) = Some (k, r).
Proof.
  induction k as [|x k IH]; intros H.
  - change ("" ++ String c r) with (String c r). rewrite cut_unfold. cbn.
    now rewrite Ascii.eqb_refl.
  - cbn in H. apply orb_false_iff in H as [Hx Hk].
    rewrite append_cons, cut_unfold. cbn [strip_prefix].
    rewrite Ascii.eqb_sym in Hx. rewrite Hx. now rewrite (IH Hk).
Qed.

Lemma cut_left_free (c : ascii) (s a b : string) :
  cut (String c "") s = Some (a, b) -> mem_char c a = false.
Proof.
  revert a. induction s as [|x s IH]; intros a H; rewrite cut_unfold in H; cbn in H.
  - discriminate.
  - destruct (Ascii.eqb c x) eqn:Hx.
    + now inversion H.
    + destruct (cut (String c "") s) as [[a' b']|] eqn:Hc; [|discriminate].
      inversion H; subst. cbn. rewrite Ascii.eqb_sym, Hx. now apply IH.
Qed.

(** What is cut off in front holds no separator. *)
Lemma cut_first (c : ascii) (sep s a b : string) :
  cut (String c sep) s = Some (a, b) -> contains (String c sep) a = false.
Proof.
  revert a. induction s as [|x s IH]; intros a H; rewrite cut_unfold in H;
    destruct (strip_prefix _ _) as [r|] eqn:Hs; try discriminate.
  - now inversion H.
  - destruct (cut (String c sep) s) as [[a' b']|] eqn:Hc; [|discriminate].
    inversion H; subst. rewrite contains_unfold, (IH a' eq_refl), orb_false_r.
    apply strip_prefix_none in Hs. apply cut_parts in Hc. subst s.
    destruct (is_prefix (String c sep) (String x a')) eqn:Hp; [|reflexivity].
    apply (is_prefix_app_l _ _ (String c sep ++ b)) in Hp.
    rewrite append_cons in Hp. congruence.
Qed.

(** *** White space at the ends *)

Lemma lstrip_length (s : string) : (String.length (lstrip s) <= String.length s)%nat.
Proof.
  induction s as [|c s IH]; [reflexivity|]. cbn [lstrip].
  destruct (is_space c); cbn [String.length]; lia.
Qed.

Lemma rstrip_length (s : string) : (String.length (rstrip s) <= String.length s)%nat.
Proof.
  induction s as [|c s IH]; [reflexivity|]. cbn [rstrip].
  destruct (rstrip s) as [|c' r'].
  - destruct (is_space c); cbn [String.length]; lia.
  - cbn [String.length] in *. lia.
Qed.

(** A text that [lstrip] leaves alone does not start with white space. *)
Lemma lstrip_fixed (c : ascii) (s : string) :
  lstrip (String c s) = String c s -> is_space c = false.
Proof.
  cbn [lstrip]. destruct (is_space c); [|reflexivity]. intros H.
  pose proof (lstrip_length s) as Hl. rewrite H in Hl. cbn [String.length] in Hl. lia.
Qed.

Lemma lstrip_idem (s : string) : lstrip (lstrip s) = lstrip s.
Proof.
  induction s as [|c s IH]; [reflexivity|]. cbn [lstrip].
  destruct (is_space c) eqn:Hc; [exact IH|]. cbn [lstrip]. now rewrite Hc.
Qed.

Lemma rstrip_idem (s : string) : rstrip (rstrip s) = rstrip s.
Proof.
  induction s as [|c s IH]; [reflexivity|]. cbn [rstrip].
  destruct (rstrip s) as [|c' r'] eqn:Hr.
  - destruct (is_space c) eqn:Hc; [reflexivity|]. cbn [rstrip]. now rewrite Hc.
  - change (rstrip (String c (String c' r')))
      with (match rstrip (String c' r') with
            | EmptyString => if is_space c then EmptyString else String c EmptyString
            | String c1 r1 => String c (String c1 r1)
            end).
    now rewrite IH.
Qed.

(** [rstrip] keeps the first character of what it keeps. *)
Lemma rstrip_head (c : ascii) (s : string) :
  is_space c = false -> exists r, rstrip (String c s) = String c r.
Proof.
  intros Hc. cbn [rstrip]. destruct (rstrip s); [rewrite Hc|]; eauto.
Qed.

Lemma strip_idem (s : string) : strip (strip s) = strip s.
Proof.
  unfold strip.
  assert (H : lstrip (rstrip (lstrip s)) = rstrip (lstrip s)).
  { pose proof (lstrip_idem s) as Hi. destruct (lstrip s) as [|c t]; [reflexivity|].
    apply lstrip_fixed in Hi. destruct (rstrip_head c t Hi) as [r ->].
    cbn [lstrip]. now rewrite Hi. }
  rewrite H. apply rstrip_idem.
Qed.

(** A text that [strip] leaves alone is left alone at either end. *)
Lemma strip_fixed (s : string) : strip s = s -> lstrip s = s /\ rstrip s = s.
Proof.
  unfold strip. intros H.
  assert (Hl : lstrip s = s).
  { destruct s as [|c s]; [reflexivity|]. cbn [lstrip] in *.
    destruct (is_space c); [|reflexivity].
    pose proof (rstrip_length (lstrip s)) as H1. pose proof (lstrip_length s) as H2.
    rewrite H in H1. cbn [String.length] in H1. lia. }
  rewrite Hl in H. auto.
Qed.

Lemma rstrip_spaces (z : string) : all_chars is_space z = true -> rstrip z = "".
Proof.
  induction z as [|c z IH]; [reflexivity|]. cbn [all_chars rstrip].
  intros [Hc Hz]%andb_true_iff. now rewrite (IH Hz), Hc.
Qed.

Lemma rstrip_app_spaces (y z : string) :
  all_chars is_space z = true -> rstrip (y ++ z) = rstrip y.
Proof.
  intros Hz. induction y as [|c y IH].
  - now apply rstrip_spaces.
  - rewrite append_cons. cbn [rstrip]. now rewrite IH.
Qed.

(** What does not end in white space is kept whole, whatever comes before. *)
Lemma rstrip_app (x y : string) :
  rstrip y = y -> y <> "" -> rstrip (x ++ y) = x ++ y.
Proof.
  intros Hy Hn. induction x as [|c x IH]; [exact Hy|].
  rewrite append_cons. cbn [rstrip]. rewrite IH.
  destruct (x ++ y) as [|c' r'] eqn:Hxy; [|reflexivity].
  destruct x; [now destruct Hn | discriminate].
Qed.

Lemma lstrip_app (k x : string) :
  lstrip k = k -> k <> "" -> lstrip (k ++ x) = k ++ x.
Proof.
  intros Hk Hn. destruct k as [|c k]; [now destruct Hn|].
  apply lstrip_fixed in Hk. rewrite append_cons. cbn [lstrip]. now rewrite Hk.
Qed.

(** [strip] gives a part of the text: it brings in no character. *)
Lemma lstrip_chars (c : ascii) (s : string) :
  mem_char c s = false -> mem_char c (lstrip s) = false.
Proof.
  induction s as [|x s IH]; [reflexivity|]. cbn [lstrip].
  destruct (is_space x); [|auto]. cbn [mem_char].
  intros [_ H]%orb_false_iff. auto.
Qed.

Lemma rstrip_chars (c : ascii) (s : string) :
  mem_char c s = false -> mem_char c (rstrip s) = false.
Proof.
  induction s as [|x s IH]; [reflexivity|]. cbn [mem_char rstrip].
  intros [Hx H]%orb_false_iff. specialize (IH H).
  destruct (rstrip s) as [|c' r'].
  - destruct (is_space x); cbn [mem_char]; [reflexivity|]. now rewrite Hx.
  - cbn [mem_char] in *. now rewrite Hx, IH.
Qed.

Lemma strip_chars (c : ascii) (s : string) :
  mem_char c s = false -> mem_char c (strip s) = false.
Proof. intros H. now apply rstrip_chars, lstrip_chars. Qed.

Lemma strip_after_newline (s : string) : strip (newline ++ s) = strip s.
Proof. reflexivity. Qed.

(** *** Lines *)

Lemma splitlines_one (l : string) :
  all_chars (fun c => negb (is_linebreak c)) l = true -> l <> "" ->
  splitlines l = [l].
Proof.
  induction l as [|c l IH]; intros H Hn; [now destruct Hn|].
  cbn [all_chars] in H. apply andb_true_iff in H as [Hc Hl].
  apply negb_true_iff in Hc. cbn [splitlines]. rewrite Hc.
  destruct l as [|c' l']; [reflexivity|]. now rewrite IH.
Qed.

Lemma splitlines_cons (l r : string) :
  all_chars (fun c => negb (is_linebreak c)) l = true ->
  splitlines (l ++ newline ++ r) = l :: splitlines r.
Proof.
  induction l as [|c l IH]; intros H.
  - change ("" ++ newline ++ r) with (String "010"%char r).
    cbn [splitlines]. change (is_linebreak "010"%char) with true. cbv iota.
    change (Ascii.eqb "010"%char "013"%char) with false. cbn [andb].
    now destruct r.
  - cbn [all_chars] in H. apply andb_true_iff in H as [Hc Hl].
    apply negb_true_iff in Hc. rewrite append_cons. cbn [splitlines]. rewrite Hc.
    now rewrite (IH Hl).
Qed.

Lemma lines_text_join (l : string) (ls : list string) :
  lines_text (l :: ls) = join newline (l :: ls) ++ newline.
Proof.
  revert l. induction ls as [|l' ls IH]; intros l.
  - cbn [lines_text join]. now rewrite append_nil_r.
  - change (lines_text (l :: l' :: ls)) with (l ++ newline ++ lines_text (l' :: ls)).
    change (join newline (l :: l' :: ls)) with (l ++ newline ++ join newline (l' :: ls)).
    rewrite IH. now rewrite !append_assoc.
Qed.

Lemma splitlines_join (l : string) (ls : list string) :
  Forall (fun l => all_chars (fun c => negb (is_linebreak c)) l = true /\ l <> "") (l :: ls) ->
  splitlines (join newline (l :: ls)) = l :: ls.
Proof.
  revert l. induction ls as [|l' ls IH]; intros l H.
  - inversion H as [|? ? [H1 H2] _]; subst. now apply splitlines_one.
  - inversion H as [|? ? [H1 H2] H3]; subst.
    change (join newline (l :: l' :: ls)) with (l ++ newline ++ join newline (l' :: ls)).
    rewrite (splitlines_cons _ _ H1). now rewrite (IH l' H3).
Qed.

Lemma join_ends (l : string) (ls : list string) :
  Forall (fun l => rstrip l = l /\ l <> "") (l :: ls) ->
  rstrip (join newline (l :: ls)) = join newline (l :: ls) /\ join newline (l :: ls) <> "".
Proof.
  revert l. induction ls as [|l' ls IH]; intros l H.
  - inversion H as [|? ? [H1 H2] _]; subst. now split.
  - inversion H as [|? ? _ H3]; subst. destruct (IH l' H3) as [H1 H2].
    change (join newline (l :: l' :: ls)) with (l ++ newline ++ join newline (l' :: ls)).
    rewrite <- append_assoc. split; [now apply rstrip_app|].
    intros E. destruct (l ++ newline) eqn:E1.
    + destruct l; discriminate.
    + discriminate.
Qed.

(** *** Replacement of tags *)

Lemma replace_absent (old new s : string) :
  contains old s = false -> replace old new s = s.
Proof.
  unfold replace. induction s as [|c s IH]; intros H; [reflexivity|].
  rewrite contains_unfold in H. apply orb_false_iff in H as [Hp Hc].
  cbn [replace_from]. rewrite Hp. now rewrite (IH Hc).
Qed.

Lemma is_prefix_short (p new t : string) :
  (String.length p <= String.length new)%nat ->
  is_prefix p (new ++ t) = is_prefix p new.
Proof.
  revert new. induction p as [|a p IH]; intros new H; [reflexivity|].
  destruct new as [|b new]; cbn [String.length] in H; [lia|].
  rewrite append_cons. cbn [is_prefix]. rewrite IH by lia. reflexivity.
Qed.

Lemma tagged_inv (s : string) :
  tagged s = true -> exists w, s = String "<" w /\ mem_char "<" w = false.
Proof.
  destruct s as [|c w]; [discriminate|]. cbn [tagged].
  intros [Hc Hw]%andb_true_iff. apply Ascii.eqb_eq in Hc. subst c.
  apply negb_true_iff in Hw. eauto.
Qed.

(** Up to the first angle bracket the text is copied. *)
Lemma prefix_kept (old new w s : string) :
  tagged old = true -> tagged new = true -> mem_char "<" w = false ->
  is_prefix w (replace_from old new 0 s) = is_prefix w s.
Proof.
  intros (o & -> & Ho)%tagged_inv (n & -> & Hn)%tagged_inv.
  revert w. induction s as [|c s IH]; intros w Hw; [reflexivity|].
  destruct w as [|x w]; [reflexivity|].
  cbn [mem_char] in Hw. apply orb_false_iff in Hw as [Hx Hw].
  cbn [replace_from]. destruct (is_prefix (String "<" o) (String c s)) eqn:Hp.
  - cbn [is_prefix] in Hp. apply andb_true_iff in Hp as [Hc _].
    apply Ascii.eqb_eq in Hc. subst c. rewrite append_cons. cbn [is_prefix].
    now rewrite Hx.
  - cbn [is_prefix]. now rewrite (IH w Hw).
Qed.

(** A replacement that keeps the tag in front puts its text wherever the
    tag is. *)
Lemma head_kept (old new p : string) (c : ascii) (s : string) :
  tagged old = true -> tagged new = true -> tagged p = true ->
  is_prefix p (String c (replace_from old new 0 s)) = is_prefix p (String c s).
Proof.
  intros Ho Hn (w & -> & Hw)%tagged_inv. cbn [is_prefix].
  now rewrite (prefix_kept old new w s Ho Hn Hw).
Qed.

Lemma contains_past (p n x : string) :
  tagged p = true -> mem_char "<" n = false ->
  contains p (n ++ x) = contains p x.
Proof.
  intros (w & -> & Hw)%tagged_inv. induction n as [|c n IH]; intros Hn; [reflexivity|].
  cbn [mem_char] in Hn. apply orb_false_iff in Hn as [Hc Hn].
  rewrite append_cons, contains_unfold. cbn [is_prefix].
  rewrite Ascii.eqb_sym in Hc. rewrite Hc. cbn [andb orb]. now apply IH.
Qed.

(** After a replacement, a tag occurs only where it did before, and not
    where the replaced tag was if what is put in does not start with it. *)
Lemma replaced_free (old new p : string) :
  tagged old = true -> tagged new = true -> tagged p = true ->
  is_prefix p new = false -> (String.length p <= String.length new)%nat ->
  forall s k, p = old \/ contains p s = false ->
    contains p (replace_from old new k s) = false.
Proof.
  intros Ho Hn Hp Hpn Hlen.
  destruct (tagged_inv _ Hn) as (n & -> & Hn').
  induction s as [|c s IH]; intros k H.
  - cbn [replace_from]. destruct p; [discriminate Hp | reflexivity].
  - assert (Hs : p = old \/ contains p s = false).
    { destruct H as [H|H]; [now left|right].
      rewrite contains_unfold in H. now apply orb_false_iff in H as [_ H]. }
    cbn [replace_from]. destruct k as [|k]; [|now apply IH].
    destruct (is_prefix old (String c s)) eqn:Hm.
    + rewrite contains_unfold, (is_prefix_short _ _ _ Hlen), Hpn. cbn [orb].
      rewrite append_cons, (contains_past p n _ Hp Hn'). now apply IH.
    + rewrite contains_unfold, (IH 0%nat Hs), orb_false_r.
      assert (Hk : is_prefix p (String c (replace_from old (String "<" n) 0 s))
                   = is_prefix p (String c s)).
      { destruct (tagged_inv _ Hp) as (w & -> & Hw). cbn [is_prefix].
        now rewrite (prefix_kept old (String "<" n) w s Ho Hn Hw). }
      rewrite Hk. destruct H as [->|H]; [exact Hm|].
      rewrite contains_unfold in H. now apply orb_false_iff in H as [H _].
Qed.

Lemma every_at_unfold (tag full s : string) :
  every_at tag full s
  = (negb (is_prefix tag s) || is_prefix full s) &&
    match s with EmptyString => true | String _ r => every_at tag full r end.
Proof. destruct s; reflexivity. Qed.

Lemma every_past (p full n x : string) :
  tagged p = true -> mem_char "<" n = false ->
  every_at p full (n ++ x) = every_at p full x.
Proof.
  intros (w & -> & Hw)%tagged_inv. induction n as [|c n IH]; intros Hn; [reflexivity|].
  cbn [mem_char] in Hn. apply orb_false_iff in Hn as [Hc Hn].
  rewrite append_cons, every_at_unfold. cbn [is_prefix].
  rewrite Ascii.eqb_sym in Hc. rewrite Hc. cbn [andb negb orb]. now apply IH.
Qed.

Lemma replaced_every (p new : string) :
  tagged p = true -> tagged new = true ->
  forall s k, every_at p new (replace_from p new k s) = true.
Proof.
  intros Hp Hn. destruct (tagged_inv _ Hn) as (n & -> & Hn').
  induction s as [|c s IH]; intros k.
  - cbn [replace_from]. destruct p; [discriminate Hp | reflexivity].
  - cbn [replace_from]. destruct k as [|k]; [|apply IH].
    destruct (is_prefix p (String c s)) eqn:Hm.
    + rewrite every_at_unfold, is_prefix_app, orb_true_r. cbn [andb].
      rewrite append_cons, (every_past p _ n _ Hp Hn'). apply IH.
    + rewrite every_at_unfold, (IH 0%nat), andb_true_r.
      now rewrite (head_kept p (String "<" n) p c s Hp Hn Hp), Hm.
Qed.

Lemma every_kept (old new p full : string) :
  tagged old = true -> tagged new = true -> tagged p = true -> tagged full = true ->
  is_prefix p new = false -> (String.length p <= String.length new)%nat ->
  forall s k, every_at p full s = true ->
    every_at p full (replace_from old new k s) = true.
Proof.
  intros Ho Hn Hp Hf Hpn Hlen.
  destruct (tagged_inv _ Hn) as (n & -> & Hn').
  induction s as [|c s IH]; intros k H.
  - exact H.
  - rewrite every_at_unfold in H. apply andb_true_iff in H as [Hh Hr].
    cbn [replace_from]. destruct k as [|k]; [|now apply IH].
    destruct (is_prefix old (String c s)) eqn:Hm.
    + rewrite every_at_unfold, (is_prefix_short _ _ _ Hlen), Hpn. cbn [negb orb andb].
      rewrite append_cons, (every_past p full n _ Hp Hn'). now apply IH.
    + rewrite every_at_unfold, (IH 0%nat Hr), andb_true_r.
      now rewrite !head_kept.
Qed.

(** ** wx/publish.py: the front matter *)

(** A fence that does not occur up to the end of a line does not start in
    the two dashes after it either. *)
Lemma fence_not_across (x : string) :
  contains "---" (x ++ newline) = false ->
  contains "---" (x ++ newline ++ "--") = false.
Proof.
  induction x as [|c x IH]; intros H.
  - reflexivity.
  - rewrite append_cons in *. rewrite contains_unfold in H.
    apply orb_false_iff in H as [Hp Hc]. rewrite contains_unfold, (IH Hc), orb_false_r.
    destruct x as [|y [|z x]]; unfold newline in *;
      rewrite ?append_cons, ?append_nil_l in *; cbn [is_prefix] in Hp |- *.
    + destruct (Ascii.eqb "-" c); reflexivity.
    + destruct (Ascii.eqb "-" c), (Ascii.eqb "-" y); reflexivity.
    + exact Hp.
Qed.

(** The second fence is found where the header ends. *)
Lemma cut_fence (a b : string) :
  contains "---" (a ++ "--") = false -> cut "---" (a ++ "---" ++ b) = Some (a, b).
Proof.
  induction a as [|c a IH]; intros H.
  - change ("" ++ "---" ++ b) with ("---" ++ b). rewrite cut_unfold.
    now rewrite strip_prefix_app.
  - rewrite !(append_cons c). rewrite !(append_cons c) in H. rewrite contains_unfold in H.
    apply orb_false_iff in H as [Hp Hc]. rewrite cut_unfold.
    assert (Hs : strip_prefix "---" (String c (a ++ "---" ++ b)) = None).
    { apply strip_prefix_none. destruct a as [|y [|z a]];
        rewrite ?append_cons, ?append_nil_l in Hp |- *; cbn [is_prefix] in Hp |- *.
      - destruct (Ascii.eqb "-" c); [discriminate Hp | reflexivity].
      - destruct (Ascii.eqb "-" c), (Ascii.eqb "-" y); try reflexivity. discriminate Hp.
      - exact Hp. }
    rewrite Hs. now rewrite (IH Hc).
Qed.

Lemma split_fences (a b : string) :
  contains "---" (a ++ "--") = false ->
  split_max "---" 2 ("---" ++ a ++ "---" ++ b) = [""; a; b].
Proof.
  intros H. cbn [split_max]. rewrite (cut_unfold "---" ("---" ++ _)), strip_prefix_app.
  now rewrite (cut_fence a b H).
Qed.

Lemma read_line_pair (meta : list (string * string)) (k v : string) :
  plain k = true -> mem_char ":" k = false -> plain v = true ->
  read_line meta (front_line (k, v)) = meta_set k v meta.
Proof.
  unfold plain, front_line. cbn [fst snd].
  intros [[_ Hk%String.eqb_eq]%andb_true_iff _]%andb_true_iff Hc
         [[_ Hv%String.eqb_eq]%andb_true_iff _]%andb_true_iff.
  unfold read_line.
  change (k ++ ": " ++ v) with (k ++ ":" ++ String " " v).
  rewrite (contains_middle k ":" (String " " v)).
  change (k ++ ":" ++ String " " v) with (k ++ String ":" (String " " v)).
  cbn [split_max]. rewrite (cut_char ":" k (String " " v) Hc).
  rewrite Hk. unfold strip at 1. cbn [lstrip].
  change (is_space " ") with true. cbv iota. fold (strip v). now rewrite Hv.
Qed.

Lemma read_lines_pairs (pairs : list (string * string)) (meta : list (string * string)) :
  Forall (fun kv => plain (fst kv) = true /\ mem_char ":" (fst kv) = false
                    /\ plain (snd kv) = true) pairs ->
  fold_left read_line (map front_line pairs) meta
  = fold_left (fun m kv => meta_set (fst kv) (snd kv) m) pairs meta.
Proof.
  intros H. revert meta. induction H as [|[k v] pairs (Hk & Hc & Hv) _ IH]; intros meta.
  - reflexivity.
  - cbn [map fold_left fst snd]. rewrite (read_line_pair meta k v Hk Hc Hv). apply IH.
Qed.

Lemma plain_line (k v : string) :
  plain k = true -> plain v = true ->
  let l := front_line (k, v) in
  all_chars (fun c => negb (is_linebreak c)) l = true /\ l <> "" /\
  lstrip l = l /\ rstrip l = l.
Proof.
  unfold plain, front_line. cbn [fst snd].
  intros [[Hk0 Hk%String.eqb_eq]%andb_true_iff Hkl]%andb_true_iff
         [[Hv0 Hv%String.eqb_eq]%andb_true_iff Hvl]%andb_true_iff.
  apply negb_true_iff, String.eqb_neq in Hk0, Hv0.
  apply strip_fixed in Hk as [Hk _]. apply strip_fixed in Hv as [_ Hv].
  cbv zeta. split; [|split; [|split]].
  - clear -Hkl Hvl. induction k as [|c k IH].
    + exact Hvl.
    + rewrite append_cons. cbn [all_chars] in *. apply andb_true_iff in Hkl as [-> Hkl].
      now apply IH.
  - destruct k; [now destruct Hk0 | discriminate].
  - now apply lstrip_app.
  - rewrite <- append_assoc. now apply rstrip_app.
Qed.

Lemma header_lines (pairs : list (string * string)) :
  Forall (fun kv => plain (fst kv) = true /\ mem_char ":" (fst kv) = false
                    /\ plain (snd kv) = true) pairs ->
  splitlines (strip (lines_text (map front_line pairs))) = map front_line pairs.
Proof.
  intros H. destruct pairs as [|[k v] ps]; [reflexivity|].
  assert (Hl : Forall (fun l => (all_chars (fun c => negb (is_linebreak c)) l = true /\ l <> "")
                                /\ lstrip l = l /\ rstrip l = l)
                 (map front_line ((k, v) :: ps))).
  { apply Forall_map. eapply Forall_impl; [exact H|].
    intros [k' v'] (Hk & _ & Hv). cbn [fst snd] in *.
    destruct (plain_line k' v' Hk Hv) as (H1 & H2 & H3 & H4). auto. }
  cbn [map] in *. set (l := front_line (k, v)) in *. set (ls := map front_line ps) in *.
  assert (Hhead : lstrip l = l /\ l <> "").
  { inversion Hl as [|? ? [[_ ?] [? _]] _]; auto. }
  unfold strip.
  change (lines_text (l :: ls)) with (l ++ newline ++ lines_text ls).
  rewrite (lstrip_app l _ (proj1 Hhead) (proj2 Hhead)).
  change (l ++ newline ++ lines_text ls) with (lines_text (l :: ls)).
  rewrite lines_text_join, rstrip_app_spaces by reflexivity.
  destruct (join_ends l ls) as [Hr _].
  { eapply Forall_impl; [exact Hl|]. intros x [[_ ?] [_ ?]]. auto. }
  rewrite Hr. apply splitlines_join.
  eapply Forall_impl; [exact Hl|]. intros x [? _]. auto.
Qed.

Lemma header_fenced (lines : list string) :
  contains "---" (lines_text lines) = false ->
  contains "---" ((newline ++ lines_text lines) ++ "--") = false.
Proof.
  intros H. destruct lines as [|l ls]; [reflexivity|].
  rewrite lines_text_join in *. rewrite !append_assoc.
  unfold newline at 1. rewrite append_cons, append_nil_l, contains_unfold.
  cbn [is_prefix]. change (Ascii.eqb "-" "010") with false. cbn [andb orb].
  now apply fence_not_across.
Qed.

Lemma meta_set_keys (k v x : string) (m : list (string * string)) :
  In x (map fst (meta_set k v m)) -> x = k \/ In x (map fst m).
Proof.
  induction m as [|[k' v'] m IH]; cbn [meta_set map fst In].
  - intros [<-|[]]. now left.
  - destruct (String.eqb k k'); cbn [map fst In]; tauto.
Qed.

Lemma meta_set_nodup (k v : string) (m : list (string * string)) :
  List.NoDup (map fst m) -> List.NoDup (map fst (meta_set k v m)).
Proof.
  induction m as [|[k' v'] m IH]; cbn [meta_set map fst]; intros H.
  - constructor; [intros []|constructor].
  - inversion H as [|? ? Hn Hd]; subst.
    destruct (String.eqb_spec k k') as [->|Hne]; cbn [map fst].
    + now constructor.
    + constructor; [|auto]. intros Hi. apply meta_set_keys in Hi as [->|Hi]; auto.
Qed.

Lemma meta_set_all (P : string -> string -> Prop) (k v : string)
    (m : list (string * string)) :
  P k v -> Forall (fun kv => P (fst kv) (snd kv)) m ->
  Forall (fun kv => P (fst kv) (snd kv)) (meta_set k v m).
Proof.
  intros Hk. induction m as [|[k' v'] m IH]; cbn [meta_set]; intros H.
  - repeat constructor. exact Hk.
  - inversion H; subst.
    destruct (String.eqb_spec k k') as [->|Hne]; constructor; auto.
Qed.

(** X8.  Round trip of the front matter.  Take pairs whose keys and values
    are not empty, are on one line and have no white space around them,
    the keys without a colon (the values may have some), and such that no
    line holds [---].  The text made of [---], one line [key: value] per
    pair, [---] and a body is parsed into the dict of the pairs (a later
    pair replaces the value of an earlier one with the same key) and the
    body, stripped. *)
Theorem front_matter_round_trip (pairs : list (string * string)) (body : string) :
  Forall (fun kv => plain (fst kv) = true /\ mem_char ":" (fst kv) = false
                    /\ plain (snd kv) = true) pairs ->
  contains "---" (lines_text (map front_line pairs)) = false ->
  parse_frontmatter (front_matter pairs body) = (meta_of_pairs pairs, strip body).
Proof.
  intros Hp Hf. unfold front_matter, parse_frontmatter.
  rewrite is_prefix_app. cbn [negb].
  replace ("---" ++ newline ++ lines_text (map front_line pairs) ++ "---" ++ newline ++ body)
    with ("---" ++ (newline ++ lines_text (map front_line pairs)) ++ "---" ++ newline ++ body)
    by now rewrite !append_assoc.
  rewrite (split_fences _ _ (header_fenced _ Hf)).
  cbn [length Nat.ltb Nat.leb nth]. rewrite !strip_after_newline.
  rewrite (header_lines pairs Hp). unfold meta_of_pairs.
  now rewrite (read_lines_pairs pairs [] Hp).
Qed.

Lemma front_matter_round_trip_witness :
  parse_frontmatter
    (front_matter [("title", "Release notes"); ("cover", "img/c-1.jpg")] "# Hi")
  = ([("title", "Release notes"); ("cover", "img/c-1.jpg")], "# Hi").
Proof.
  apply (front_matter_round_trip
           [("title", "Release notes"); ("cover", "img/c-1.jpg")] "# Hi").
  - repeat (constructor; [repeat split; reflexivity|]). constructor.
  - reflexivity.
Defined.

(** X9.  Front matter is read exactly when the text starts with [---] and
    [---] occurs again after that.  Otherwise the dict is empty and the
    text is returned as it is: not stripped, and with the opening fence if
    there is one.  With both fences there, the header is the text up to
    the first [---] after the opening one (where [cut] finds it), and the
    body is all that comes after it, stripped. *)
Theorem fences_decide_front_matter (text : string) :
  (is_prefix "---" text = false -> parse_frontmatter text = ([], text)) /\
  (forall r, text = "---" ++ r -> contains "---" r = false ->
     parse_frontmatter text = ([], text)) /\
  (forall r, text = "---" ++ r -> contains "---" r = true ->
     exists a b, cut "---" r = Some (a, b) /\
       r = a ++ "---" ++ b /\ contains "---" a = false /\
       parse_frontmatter text
       = (fold_left read_line (splitlines (strip a)) [], strip b)).
Proof.
  split; [|split].
  - intros H. unfold parse_frontmatter. now rewrite H.
  - intros r -> H. unfold parse_frontmatter. rewrite is_prefix_app. cbn [negb split_max].
    rewrite (cut_unfold "---" ("---" ++ r)), strip_prefix_app, (cut_none _ _ H).
    reflexivity.
  - intros r -> H. destruct (cut_some _ _ H) as (a & b & Hc). exists a, b.
    split; [exact Hc|]. split; [now apply cut_parts|]. split; [now apply cut_first in Hc|].
    unfold parse_frontmatter. rewrite is_prefix_app. cbn [negb split_max].
    rewrite (cut_unfold "---" ("---" ++ r)), strip_prefix_app, Hc. reflexivity.
Qed.

Lemma fences_decide_front_matter_witness :
  exists a b,
    cut "---" (String "010"%char "title: T" ++ String "010"%char "--- text") = Some (a, b) /\
    String "010"%char "title: T" ++ String "010"%char "--- text" = a ++ "---" ++ b /\
    contains "---" a = false /\
    parse_frontmatter ("---" ++ String "010"%char "title: T" ++ String "010"%char "--- text")
    = (fold_left read_line (splitlines (strip a)) [], strip b).
Proof.
  apply (proj2 (proj2 (fences_decide_front_matter
                  ("---" ++ String "010"%char "title: T" ++ String "010"%char "--- text")))
           (String "010"%char "title: T" ++ String "010"%char "--- text")).
  - reflexivity.
  - reflexivity.
Defined.

(** X10.  Whatever the text, the keys of the dict [parse_frontmatter]
    returns are distinct, hold no colon and have no white space around
    them; the values have no white space around them; and the body is the
    whole text beside an empty dict, or else is stripped. *)
Theorem front_matter_is_clean (text : string) :
  let meta := fst (parse_frontmatter text) in
  let body := snd (parse_frontmatter text) in
  List.NoDup (map fst meta) /\
  Forall (fun kv => strip (fst kv) = fst kv /\ mem_char ":" (fst kv) = false
                    /\ strip (snd kv) = snd kv) meta /\
  (meta = [] /\ body = text \/ strip body = body).
Proof.
  cbv zeta.
  set (clean := fun k v : string => strip k = k /\ mem_char ":" k = false /\ strip v = v).
  assert (Hfold : forall lines meta,
            List.NoDup (map fst meta) /\ Forall (fun kv => clean (fst kv) (snd kv)) meta ->
            List.NoDup (map fst (fold_left read_line lines meta)) /\
            Forall (fun kv => clean (fst kv) (snd kv)) (fold_left read_line lines meta)).
  { induction lines as [|line lines IH]; intros meta [H1 H2]; [now split|].
    cbn [fold_left]. apply IH. unfold read_line.
    destruct (contains ":" line); [|now split]. cbn [split_max].
    destruct (cut ":" line) as [[a b]|] eqn:Hc; [|now split].
    split; [now apply meta_set_nodup|]. apply meta_set_all; [|exact H2].
    split; [apply strip_idem|]. split; [|apply strip_idem].
    apply strip_chars. now apply cut_left_free in Hc. }
  unfold parse_frontmatter.
  destruct (negb (is_prefix "---" text)).
  { cbn [fst snd map]. split; [constructor|]. split; [constructor|]. now left. }
  destruct (length (split_max "---" 2 text) <? 3)%nat.
  { cbn [fst snd map]. split; [constructor|]. split; [constructor|]. now left. }
  cbn [fst snd].
  destruct (Hfold (splitlines (strip (nth 1 (split_max "---" 2 text) ""))) [])
    as [H1 H2].
  { split; constructor. }
  split; [exact H1|]. split; [exact H2|]. right. apply strip_idem.
Qed.

(** ** wx/publish.py: the styles *)

Lemma md_to_wx_html_styles (markdown : string -> string) (md_text : string) :
  md_to_wx_html markdown md_text
  = fold_left (fun html tag => replace (fst tag) (snd tag) html) styles (markdown md_text).
Proof. reflexivity. Qed.

Lemma steps_keep_free (p : string) (steps : list (string * string)) :
  safe p steps = true ->
  forall html, contains p html = false ->
    contains p (fold_left (fun html tag => replace (fst tag) (snd tag) html) steps html)
    = false.
Proof.
  unfold safe. intros [Hp Hs]%andb_true_iff.
  induction steps as [|[old new] steps IH]; intros html H; [exact H|].
  cbn [forallb fst snd] in Hs.
  apply andb_true_iff in Hs as [[[[Ho Hn]%andb_true_iff Hpn]%andb_true_iff Hl]%andb_true_iff Hs].
  apply negb_true_iff in Hpn. apply Nat.leb_le in Hl.
  cbn [fold_left fst snd]. apply (IH Hs). unfold replace.
  apply replaced_free; auto.
Qed.

Lemma tag_styled (i : nat) (p new : string) (html : string) :
  nth_error styles i = Some (p, new) -> safe p (skipn i styles) = true ->
  contains p (fold_left (fun html tag => replace (fst tag) (snd tag) html) styles html)
  = false.
Proof.
  intros Hi Hs. rewrite <- (firstn_skipn i styles) at 1.
  rewrite fold_left_app.
  assert (E : skipn i styles = (p, new) :: skipn (S i) styles).
  { clear Hs. revert i Hi. induction styles as [|t l IH]; intros [|i] Hi; try discriminate.
    - now inversion Hi.
    - cbn [nth_error] in Hi. cbn [skipn]. rewrite (IH i Hi). reflexivity. }
  rewrite E in *. cbn [fold_left fst snd].
  unfold safe in Hs. cbn [forallb fst snd] in Hs.
  apply andb_true_iff in Hs as [Hp Hs].
  apply andb_true_iff in Hs as [[[[Ho Hn]%andb_true_iff Hpn]%andb_true_iff Hl]%andb_true_iff Hs].
  apply negb_true_iff in Hpn. apply Nat.leb_le in Hl.
  apply steps_keep_free; [unfold safe; now rewrite Hp, Hs|].
  unfold replace. apply replaced_free; auto.
Qed.

(** X11.  If none of the sixteen tags that [md_to_wx_html] styles occurs
    in what the markdown renderer produces, the rendering is returned as
    it is. *)
Theorem unstyled_text_unchanged (markdown : string -> string) (md_text : string) :
  Forall (fun tag => contains tag (markdown md_text) = false) (bare_tags ++ attribute_tags) ->
  md_to_wx_html markdown md_text = markdown md_text.
Proof.
  intros H. rewrite md_to_wx_html_styles.
  change (bare_tags ++ attribute_tags)%list with (map fst styles) in H.
  apply Forall_map in H. induction H as [|[old new] steps H _ IH]; [reflexivity|].
  cbn [fold_left fst snd] in *. now rewrite (replace_absent old new _ H).
Qed.

Lemma unstyled_text_unchanged_witness :
  md_to_wx_html (fun md => md) "3 < 4 and <b>bold</b>" = "3 < 4 and <b>bold</b>".
Proof.
  apply (unstyled_text_unchanged (fun md => md) "3 < 4 and <b>bold</b>").
  repeat (constructor; [reflexivity|]). constructor.
Defined.

(** X12.  Whatever the renderer produces, none of [<p>], [<h1>] to [<h4>],
    [<code>], [<pre>], [<ul>], [<ol>], [<li>], [<blockquote>], [<table>],
    [<th>], [<td>] occurs in the result: its replacement leaves no
    occurrence of it, and no later replacement puts a bare one back. *)
Theorem no_bare_tag_left (markdown : string -> string) (md_text : string) :
  Forall (fun tag => contains tag (md_to_wx_html markdown md_text) = false) bare_tags.
Proof.
  rewrite md_to_wx_html_styles. unfold bare_tags.
  repeat (constructor;
          [match goal with
           | |- contains ?p _ = false =>
               first [ refine (tag_styled 0 p _ _ _ _); vm_compute; reflexivity
                     | refine (tag_styled 1 p _ _ _ _); vm_compute; reflexivity
                     | refine (tag_styled 2 p _ _ _ _); vm_compute; reflexivity
                     | refine (tag_styled 3 p _ _ _ _); vm_compute; reflexivity
                     | refine (tag_styled 4 p _ _ _ _); vm_compute; reflexivity
                     | refine (tag_styled 5 p _ _ _ _); vm_compute; reflexivity
                     | refine (tag_styled 6 p _ _ _ _); vm_compute; reflexivity
                     | refine (tag_styled 7 p _ _ _ _); vm_compute; reflexivity
                     | refine (tag_styled 8 p _ _ _ _); vm_compute; reflexivity
                     | refine (tag_styled 9 p _ _ _ _); vm_compute; reflexivity
                     | refine (tag_styled 10 p _ _ _ _); vm_compute; reflexivity
                     | refine (tag_styled 11 p _ _ _ _); vm_compute; reflexivity
                     | refine (tag_styled 12 p _ _ _ _); vm_compute; reflexivity
                     | refine (tag_styled 13 p _ _ _ _); vm_compute; reflexivity ]
           end|]).
  constructor.
Qed.

(** X13.  Whatever the renderer produces, every [<a ] and every [<img ] of
    the result is followed by its style attribute. *)
Theorem attribute_tags_styled (markdown : string -> string) (md_text : string) :
  every_at "<a " ("<a " ++ style "color: #42b983; text-decoration: none;" ++ " ")
    (md_to_wx_html markdown md_text) = true /\
  every_at "<img "
    ("<img " ++ style "max-width: 100%; display: block; margin: 1em auto;" ++ " ")
    (md_to_wx_html markdown md_text) = true.
Proof.
  unfold md_to_wx_html. cbv zeta. unfold replace. split.
  - apply every_kept; try reflexivity; [vm_compute; lia|].
    apply replaced_every; reflexivity.
  - apply replaced_every; reflexivity.
Qed.

(** ** wx/publish.py: the two commands *)

(** X14.  [do_verify] lets no exception through.  After its opening line
    it either prints the start of the token and the line of success and
    returns, or prints the line of failure with the text of the error and
    leaves with exit code 1. *)
Theorem verify_reports (builtin_text : exn -> string) (e : env) (s : state) :
  let r := fst (do_verify builtin_text e s) in
  let s' := snd (do_verify builtin_text e s) in
  (r = Done tt /\
   exists head,
     stdout s' = (stdout s ++ ["正在验证 access_token ...";
                               ("  access_token 获取成功: " ++ head ++ "...")%string;
                               "验证通过！"])%list) \/
  (r = Exit 1 /\
   exists x,
     stdout s' = (stdout s ++ ["正在验证 access_token ...";
                               ("验证失败: " ++ exn_text builtin_text x)%string])%list).
Proof.
  cbv zeta. unfold do_verify. run_script. cbv beta iota delta [print].
  cbv beta iota delta [mbind M_bind].
  pose proof (token_call_quiet e (emit "正在验证 access_token ..." s) true) as [Ho _].
  destruct (get_access_token true e (emit "正在验证 access_token ..." s))
    as [[tok|x] s1]; cbn [fst snd emit stdout] in Ho.
  - destruct tok; cbv beta iota delta [py_head20 mret M_ret raise print];
      cbn [fst snd emit stdout]; rewrite Ho, <- ?app_assoc; cbn [app];
      first [ left; split; [reflexivity|]; eexists; reflexivity
            | right; split; [reflexivity|]; eexists; reflexivity ].
  - cbn [fst snd emit stdout]. rewrite Ho, <- app_assoc.
    right. split; [reflexivity|]. eexists; reflexivity.
Qed.



(** X16.  [do_publish] looks at the local files before anything is sent.
    If the markdown file does not exist, it prints one line and leaves
    with exit code 1.  If no cover is named on the command line or in the
    front matter (an empty name counts as none) and the default cover does
    not exist, it leaves with exit code 1 without a request, a clock
    reading or a change to a file. *)
Theorem publish_checks_files_first
    (markdown : string -> string) (e : env) (s : state)
    (md_path : string) (cover_path : option string) (author : string) (draft_only : bool) :
  (fs s !! md_path = None ->
   do_publish markdown md_path cover_path author draft_only e s
   = (Exit 1, emit ("文件不存在: " ++ md_path) s)) /\
  (forall raw,
     fs s !! md_path = Some raw ->
     truthy cover_path = false ->
     truthy (meta_get "cover" (fst (parse_frontmatter raw))) = false ->
     fs s !! DEFAULT_COVER = None ->
     let r := fst (do_publish markdown md_path cover_path author draft_only e s) in
     let s' := snd (do_publish markdown md_path cover_path author draft_only e s) in
     r = Exit 1 /\ sent s' = sent s /\ fs s' = fs s /\ ticks s' = ticks s).
Proof.
  split.
  - intros Hf. unfold do_publish. run_script.
    cbv beta iota delta [path_exists print]. rewrite Hf. reflexivity.
  - intros raw Hf Hc Hm Hd. cbv zeta. unfold do_publish. run_script.
    cbv beta iota delta [path_exists print read_text]. rewrite Hf. cbn [negb].
    cbv beta iota. cbn [emit fs]. rewrite Hf.
    destruct (parse_frontmatter raw) as [meta body]. cbn [fst] in Hm.
    rewrite Hc. cbv beta iota.
    destruct (meta_get "cover" meta) as [[|c p]|]; [| discriminate Hm |];
      cbv beta iota; cbn [emit fs]; rewrite Hd; cbn [negb fst snd]; auto.
Qed.

Lemma publish_checks_files_first_witness :
  fst (do_publish one_paragraph "post.md" None "GeekPwd" false newsroom
         (set_file "post.md" "no front matter" empty_state)) = Exit 1 /\
  sent (snd (do_publish one_paragraph "post.md" None "GeekPwd" false newsroom
               (set_file "post.md" "no front matter" empty_state))) = [].
Proof.
  destruct (proj2 (publish_checks_files_first one_paragraph newsroom
                     (set_file "post.md" "no front matter" empty_state)
                     "post.md" None "GeekPwd" false)
              "no front matter") as (H1 & H2 & _).
  - vm_compute. reflexivity.
  - reflexivity.
  - reflexivity.
  - vm_compute. reflexivity.
  - split; [exact H1|exact H2].
Defined.

Lemma requests_since_app (s s' : state) (l : list request) :
  sent s' = (sent s ++ l)%list -> requests_since s s' = l.
Proof.
  intros H. unfold requests_since. rewrite H. clear H.
  induction (sent s) as [|x xs IH]; [reflexivity|exact IH].
Qed.

Lemma operation_urls_app (s s' : state) (l : list request) :
  sent s' = (sent s ++ l)%list ->
  operation_urls s s'
  = List.filter (fun u => negb (String.eqb u (BASE_URL ++ "/token"))) (map rq_url l).
Proof. intros H. unfold operation_urls. now rewrite (requests_since_app s s' l H). Qed.

(** What an operation adds to the requests sent: its endpoint at most
    once, and once if it returns; no file but the cache changes. *)
Lemma operation_grows (op : operation) (e : env) (s : state) :
  exists l,
    sent (snd (perform op e s)) = (sent s ++ l)%list /\
    (List.filter (fun u => negb (String.eqb u (BASE_URL ++ "/token"))) (map rq_url l) = [] \/
     List.filter (fun u => negb (String.eqb u (BASE_URL ++ "/token"))) (map rq_url l)
     = [endpoint op]) /\
    ((exists v, fst (perform op e s) = Ok v) ->
     List.filter (fun u => negb (String.eqb u (BASE_URL ++ "/token"))) (map rq_url l)
     = [endpoint op]) /\
    (forall p, p <> TOKEN_CACHE -> fs (snd (perform op e s)) !! p = fs s !! p).
Proof.
  pose proof (perform_after_token op e s) as Hp.
  pose proof (at_most_one_request e s false) as Hs.
  pose proof (other_files_untouched e s false) as Hf.
  assert (Hu : negb (String.eqb (endpoint op) (BASE_URL ++ "/token")) = true).
  { now destruct op as [? []| | | | |]. }
  destruct (get_access_token false e s) as [[tok|x] s1]; cbn [fst snd] in *.
  - destruct Hp as [(x & Hp & _)|(r & rq & out & Hp & _ & Hq & _)]; rewrite Hp;
      cbn [fst snd sent fs].
    + destruct Hs as [Hs|Hs]; [exists []|exists [token_request e]]; rewrite Hs, ?app_nil_r;
        (split; [reflexivity|]); (split; [now left|]);
        (split; [intros [v Hv]; discriminate|exact Hf]).
    + destruct Hs as [Hs|Hs]; [exists [rq]|exists [token_request e; rq]];
        rewrite Hs, <- ?app_assoc; (split; [reflexivity|]);
        cbn [map List.filter rq_url token_request]; rewrite Hq, Hu;
        (split; [now right|]); (split; [reflexivity|exact Hf]).
  - rewrite Hp. cbn [fst snd].
    destruct Hs as [Hs|Hs]; [exists []|exists [token_request e]]; rewrite Hs, ?app_nil_r;
      (split; [reflexivity|]); (split; [now left|]);
      (split; [intros [v Hv]; discriminate|exact Hf]).
Qed.

Lemma perform_publish (m : json) (e : env) (s : state) :
  snd (perform (Publish m) e s) = snd (publish m e s) /\
  ((exists v, fst (publish m e s) = Ok v) -> exists v, fst (perform (Publish m) e s) = Ok v).
Proof.
  cbn [perform]. cbv beta iota delta [mbind M_bind mret M_ret].
  destruct (publish m e s) as [[v|x] s']; cbn [fst snd]; split; eauto.
  intros [v Hv]. discriminate.
Qed.

Lemma release_order (title html cover author digest : string) (draft_only : bool)
    (e : env) (s : state) (r : ending unit) (s' : state) :
  release title html cover author digest draft_only e s = (r, s') ->
  exists n,
    operation_urls s s' = firstn n pipeline /\
    (draft_only = true -> (n <= 2)%nat) /\
    (r = Done tt -> n = if draft_only then 2%nat else 3%nat) /\
    (forall p, p <> TOKEN_CACHE -> fs s' !! p = fs s !! p).
Proof.
  unfold release. run_script. cbv beta iota delta [print].
  destruct (operation_grows (UploadThumbImage cover) e s) as (l1 & H1 & U1 & O1 & F1).
  cbn [perform endpoint] in *.
  destruct (upload_thumb_image cover e s) as [[m1|x1] s1]; cbn [fst snd] in *.
  2:{ intros [= <- <-]. rewrite (operation_urls_app s s1 l1 H1).
      destruct U1 as [U1|U1]; rewrite U1; [exists 0%nat|exists 1%nat];
        (split; [reflexivity|]); (split; [lia|]); (split; [discriminate|exact F1]). }
  specialize (O1 (ex_intro _ m1 eq_refl)). clear U1.
  destruct (operation_grows (CreateDraft title html m1 author digest) e
              (emit "[4/5] 创建草稿 ..." s1)) as (l2 & H2 & U2 & O2 & F2).
  cbn [perform endpoint emit sent fs] in *.
  destruct (create_draft title html m1 author digest e (emit "[4/5] 创建草稿 ..." s1))
    as [[m2|x2] s2]; cbn [fst snd] in *.
  2:{ intros [= <- <-].
      rewrite (operation_urls_app s s2 (l1 ++ l2)) by now rewrite H2, H1, app_assoc.
      rewrite List.map_app, List.filter_app, O1.
      destruct U2 as [U2|U2]; rewrite U2; [exists 1%nat|exists 2%nat];
        (split; [reflexivity|]); (split; [lia|]); (split; [discriminate|]);
        intros p Hp; now rewrite F2, F1. }
  specialize (O2 (ex_intro _ m2 eq_refl)). clear U2.
  destruct draft_only.
  { intros [= <- <-]. exists 2%nat. cbn [emit sent fs].
    rewrite (operation_urls_app s _ (l1 ++ l2)) by (cbn [emit sent]; now rewrite H2, H1, app_assoc).
    rewrite List.map_app, List.filter_app, O1, O2.
    split; [reflexivity|]. split; [lia|]. split; [reflexivity|].
    intros p Hp. cbn [emit fs]. now rewrite F2, F1. }
  destruct (operation_grows (Publish m2) e (emit "[5/5] 提交发布 ..." s2))
    as (l3 & H3 & U3 & O3 & F3).
  destruct (perform_publish m2 e (emit "[5/5] 提交发布 ..." s2)) as [E3 K3].
  rewrite E3 in H3, F3. cbn [endpoint emit sent fs] in *.
  destruct (publish m2 e (emit "[5/5] 提交发布 ..." s2)) as [[pid|x3] s3]; cbn [fst snd] in *.
  - specialize (O3 (K3 (ex_intro _ pid eq_refl))).
    intros [= <- <-]. exists 3%nat.
    rewrite (operation_urls_app s _ (l1 ++ l2 ++ l3))
      by (cbn [emit sent]; now rewrite H3, H2, H1, !app_assoc).
    rewrite !List.map_app, !List.filter_app, O1, O2, O3.
    split; [reflexivity|]. split; [discriminate|]. split; [reflexivity|].
    intros p Hp. cbn [emit fs]. now rewrite F3, F2, F1.
  - intros [= <- <-].
    rewrite (operation_urls_app s s3 (l1 ++ l2 ++ l3)) by now rewrite H3, H2, H1, !app_assoc.
    rewrite !List.map_app, !List.filter_app, O1, O2.
    destruct U3 as [U3|U3]; rewrite U3; [exists 2%nat|exists 3%nat];
      (split; [reflexivity|]); (split; [discriminate|]); (split; [discriminate|]);
      intros p Hp; now rewrite F3, F2, F1.
Qed.

(** X17.  The requests of [do_publish], those for a token apart, are an
    initial part of: upload of the cover, creation of the draft,
    publication, in this order, none of them twice.  With [draft_only] the
    publication is never requested.  A run that ends normally has sent
    them all: two with [draft_only], three without.  No file other than
    the cache file changes. *)
Theorem publish_pipeline_order
    (markdown : string -> string) (e : env) (s : state)
    (md_path : string) (cover_path : option string) (author : string) (draft_only : bool) :
  let r := fst (do_publish markdown md_path cover_path author draft_only e s) in
  let s' := snd (do_publish markdown md_path cover_path author draft_only e s) in
  exists n,
    operation_urls s s' = firstn n pipeline /\
    (draft_only = true -> (n <= 2)%nat) /\
    (r = Done tt -> n = if draft_only then 2%nat else 3%nat) /\
    (forall p, p <> TOKEN_CACHE -> fs s' !! p = fs s !! p).
Proof.
  cbv zeta.
  destruct (do_publish markdown md_path cover_path author draft_only e s) as [r s'] eqn:Hrun.
  cbn [fst snd]. revert Hrun. unfold do_publish. run_script.
  cbv beta iota delta [path_exists print read_text].
  assert (Hnone : forall st : state, sent st = sent s -> fs st = fs s ->
            exists n, operation_urls s st = firstn n pipeline /\
              (draft_only = true -> (n <= 2)%nat) /\ n = 0%nat /\
              (forall p, p <> TOKEN_CACHE -> fs st !! p = fs s !! p)).
  { intros st H1 H2. exists 0%nat. unfold operation_urls.
    rewrite (requests_since_app s st []) by now rewrite app_nil_r.
    rewrite H2. split; [reflexivity|]. split; [lia|]. split; reflexivity. }
  destruct (fs s !! md_path) as [raw|] eqn:Hf; cbn [negb]; cbv beta iota.
  2:{ intros [= <- <-]. destruct (Hnone (emit ("文件不存在: " ++ md_path) s) eq_refl eq_refl)
        as (n & H1 & H2 & -> & H4).
      exists 0%nat. split; [exact H1|]. split; [lia|]. split; [discriminate|exact H4]. }
  cbn [emit fs]. rewrite Hf. destruct (parse_frontmatter raw) as [meta body].
  cbv beta iota.
  match goal with
  | |- context [emit "[3/5] 上传封面图 ..." ?st] =>
      set (sA := emit "[3/5] 上传封面图 ..." st)
  end.
  assert (HA : sent sA = sent s /\ fs sA = fs s) by (split; reflexivity).
  clearbody sA. destruct HA as [HA1 HA2].
  assert (Hrest : forall cover,
            release (meta_get_or "title" meta (path_stem md_path))
              (md_to_wx_html markdown body) cover (meta_get_or "author" meta author)
              (meta_get_or "digest" meta "") draft_only e sA = (r, s') ->
            exists n,
              operation_urls s s' = firstn n pipeline /\
              (draft_only = true -> (n <= 2)%nat) /\
              (r = Done tt -> n = if draft_only then 2%nat else 3%nat) /\
              (forall p, p <> TOKEN_CACHE -> fs s' !! p = fs s !! p)).
  { intros cover Hr. apply release_order in Hr as (n & H1 & H2 & H3 & H4).
    exists n. unfold operation_urls, requests_since in *. rewrite HA1, HA2 in *. auto. }
  destruct (if truthy cover_path then cover_path else meta_get "cover" meta)
    as [[|c p]|]; cbv beta iota; try apply Hrest;
    (destruct (fs sA !! DEFAULT_COVER); cbn [negb]; cbv beta iota; [apply Hrest|]);
    intros [= <- <-];
    match goal with
    | |- context [operation_urls s ?st] =>
        destruct (Hnone st HA1 HA2) as (n & N1 & N2 & -> & N4)
    end;
    exists 0%nat; (split; [exact N1|]); (split; [lia|]); (split; [discriminate|exact N4]).
Qed.

Section Served.

Context (e : env) (Hvalid : valid_identity e).
Context (s : state) (tok : json) (exp : Z).
Context (Hheld : holds_record s tok exp) (Hfresh : clock e (ticks s) < exp).




End Served.



